(** * aeronav vision service: control-signal derivation and session handler

    A shallow embedding of [backend/vision_service/server.py] and of
    [backend/vision_service/models/hand_tracker.py].

    Numbers.  Python floats are idealised as exact rationals ([Q]); every
    numeric statement below is about this idealisation, compared with
    [==] ([Qeq]) unless the two sides are syntactically the same number.

    Exceptions.  A Python call that can raise returns [Result A]: [inl e] is
    "raised [e]", [inr v] is "returned [v]". *)

From Stdlib Require Import QArith Qminmax Lqa.
From Stdlib Require Import ZArith Lia Floats.
From stdpp Require Import gmap strings list.

#[local] Set Warnings "-register-all".
#[local] Open Scope string_scope.

(** ** Python values and exceptions *)

Inductive PyExc : Type :=
| ZeroDivisionError
| IndexError
| ValueError
| TypeError
| AttributeError
| JSONDecodeError
| ImportError
| LibraryError (what : string).

Definition Result (A : Type) : Type := (PyExc + A)%type.

Definition ok {A} (a : A) : Result A := inr a.
Definition raise {A} (e : PyExc) : Result A := inl e.

Definition rbind {A B} (r : Result A) (k : A -> Result B) : Result B :=
  match r with
  | inl e => inl e
  | inr a => k a
  end.

Declare Scope result_scope.
Delimit Scope result_scope with result.
Notation "x <~ r ; k" := (rbind r (fun x => k))
  (at level 100, r at next level, right associativity) : result_scope.

(** [l[i]] on a Python list. *)
Definition py_index {A} (l : list A) (i : nat) : Result A :=
  match nth_error l i with
  | Some v => ok v
  | None => raise IndexError
  end.

(** Strict comparison of rationals as a boolean. *)
Definition Qlt_bool (a b : Q) : bool :=
  (Qnum a * QDen b <? Qnum b * QDen a)%Z.

(** [min(a, b)] and [max(a, b)]: the builtin keeps its first argument unless
    the second compares strictly below (above) it. *)
Definition py_min (a b : Q) : Q := if Qlt_bool b a then b else a.
Definition py_max (a b : Q) : Q := if Qlt_bool a b then b else a.

(** [a / n] where [n] is a [len(...)]. *)
Definition py_div (a : Q) (n : nat) : Result Q :=
  match n with
  | O => raise ZeroDivisionError
  | S _ => ok (a / inject_Z (Z.of_nat n))%Q
  end.

(** ** Data model: the dictionaries built by the adapters and the server *)

(** A landmark is a Python list of coordinates, [[x, y, z]] as the hand
    tracker builds it. *)
Definition Landmark : Type := list Q.

Record BoundingBox : Type := mkBox {
  box_x : Q;
  box_y : Q;
  box_width : Q;
  box_height : Q
}.

Record Hand : Type := mkHand {
  landmarks : list Landmark;
  handedness : string;
  confidence : Q;
  boundingBox : BoundingBox
}.

Inductive Action : Type := IDLE | BOOST.

Record Direction : Type := mkDirection {
  dir_x : Q;
  dir_y : Q
}.

Record ControlSignal : Type := mkControl {
  direction : Direction;
  thrust : Q;
  action : Action
}.

(** ** [calculate_control_signal] (server.py, lines 188-217) *)

(** [sum(l[i] for l in landmarks)]: the generator indexes each landmark in
    turn and the builtin adds from the left, starting at [0]. *)
Fixpoint sum_coord (i : nat) (acc : Q) (lms : list Landmark) : Result Q :=
  match lms with
  | [] => ok acc
  | l :: rest =>
      match py_index l i with
      | inl e => raise e
      | inr v => sum_coord i (acc + v)%Q rest
      end
  end.

(** [len(landmarks[0]) > 2], the test of the conditional expression. *)
Definition depth_check (lms : list Landmark) : Result bool :=
  (first <~ py_index lms 0 ;
   ok (2 <? length first)%nat)%result.

(** The conditional expression of line 203: the test is evaluated first. *)
Definition average_z (lms : list Landmark) : Result Q :=
  (deep <~ depth_check lms ;
   if deep : bool
   then (s <~ sum_coord 2 0 lms ; py_div s (length lms))
   else ok 0%Q)%result.

Definition gesture (n : nat) (thrust : Q) : Action :=
  if (21 <=? n)%nat
  then (if Qlt_bool (7 # 10) thrust then BOOST else IDLE)
  else IDLE.

Definition calculate_control_signal (hand : Hand) (image_shape : list nat)
  : Result ControlSignal :=
  (let lms := landmarks hand in
   sx <~ sum_coord 0 0 lms ;
   center_x <~ py_div sx (length lms) ;
   sy <~ sum_coord 1 0 lms ;
   center_y <~ py_div sy (length lms) ;
   let direction :=
     {| dir_x := (center_x - (1 # 2)) * 2 ;
        dir_y := ((1 # 2) - center_y) * 2 |}%Q in
   avg_z <~ average_z lms ;
   let thrust := py_max 0 (py_min 1 (1 - (avg_z + (1 # 2))))%Q in
   let action := gesture (length lms) thrust in
   ok {| direction := direction ; thrust := thrust ; action := action |})%result.

(** ** JSON values, as [json.loads] returns them *)

Inductive json : Type :=
| JNull
| JBool (b : bool)
| JNum (q : Q)
| JStr (s : string)
| JArr (items : list json)
| JObj (fields : gmap string json).

(** Truth value of a parsed JSON value in an [if]. *)
Definition truthy (v : json) : bool :=
  match v with
  | JNull => false
  | JBool b => b
  | JNum q => negb (Qeq_bool q 0)
  | JStr s => negb (String.eqb s "")
  | JArr items => match items with [] => false | _ => true end
  | JObj fields => negb (bool_decide (fields = ∅))
  end.

(** [message.get(key)]: [None] becomes [null] once serialised. *)
Definition dict_get (message : gmap string json) (key : string) : json :=
  default JNull (message !! key).

(** [message.get(key, False)] used as a condition. *)
Definition flag (message : gmap string json) (key : string) : bool :=
  match message !! key with
  | Some v => truthy v
  | None => false
  end.

(** [message.get("type") == tag]. *)
Definition type_is (message : gmap string json) (tag : string) : bool :=
  match message !! "type" with
  | Some (JStr t) => String.eqb t tag
  | _ => false
  end.

(** ** What lies outside the repository

    The image codec (base64, numpy, OpenCV), MediaPipe, Ultralytics and the
    constructors' calls into them.  Objects that keep state between calls
    (MediaPipe runs with [static_image_mode=False]) thread it explicitly. *)

Record MPLandmark : Type := mkMPLandmark {
  mp_x : Q;
  mp_y : Q;
  mp_z : Q
}.

Record MPHandsResult : Type := mkMPHandsResult {
  multi_hand_landmarks : option (list (list MPLandmark));
  (** [multi_handedness[idx].classification], as the list of its labels *)
  multi_handedness : list (list string)
}.

Record ObjectDetection : Type := mkObject {
  obj_class : string;
  obj_classId : Z;
  obj_confidence : Q;
  obj_boundingBox : BoundingBox
}.

Class Externals : Type := {
  Image : Type;
  image_shape : Image -> list nat;
  (** the [try] body of [decode_image] on a string payload *)
  b64_imdecode : string -> Result Image;
  (** [torch.cuda.is_available()] *)
  cuda_is_available : bool;
  (** object states *)
  VisionProcessor : Type;
  MPHands : Type;
  YOLOModel : Type;
  PoseEstimator : Type;
  PoseData : Type;
  (** constructors, given the device name *)
  CudaVisionProcessor_init : string -> Result VisionProcessor;
  HandTracker_init : string -> Result MPHands;
  YOLODetector_init : string -> Result YOLOModel;
  PoseEstimator_init : string -> Result PoseEstimator;
  (** [self.hands.process(rgb_image)] *)
  hands_process : MPHands -> Image -> Result MPHandsResult * MPHands;
  (** [YOLODetector.detect] and [PoseEstimator.detect] *)
  YOLODetector_detect :
    YOLOModel -> Image -> Result (list ObjectDetection) * YOLOModel;
  PoseEstimator_detect :
    PoseEstimator -> Image -> Result (option PoseData) * PoseEstimator
}.

(** ** [HandTracker.detect] (hand_tracker.py, lines 38-85) *)

(** [min(xs)] and [max(xs)] on a list. *)
Definition py_min_list (xs : list Q) : Result Q :=
  match xs with
  | [] => raise ValueError
  | x :: rest => ok (fold_left py_min rest x)
  end.

Definition py_max_list (xs : list Q) : Result Q :=
  match xs with
  | [] => raise ValueError
  | x :: rest => ok (fold_left py_max rest x)
  end.

(** [[l[i] for l in landmarks]]. *)
Fixpoint column (i : nat) (lms : list Landmark) : Result (list Q) :=
  match lms with
  | [] => ok []
  | l :: rest =>
      match py_index l i with
      | inl e => raise e
      | inr v => rbind (column i rest) (fun vs => ok (v :: vs))
      end
  end.

(** The body of the [for] loop for one detected hand. *)
Definition build_hand (handednesses : list (list string)) (idx : nat)
    (hand_landmarks : list MPLandmark) : Result Hand :=
  (classification <~ py_index handednesses idx ;
   label <~ py_index classification 0 ;
   let lms := map (fun lm => [mp_x lm; mp_y lm; mp_z lm]) hand_landmarks in
   xs <~ column 0 lms ;
   ys <~ column 1 lms ;
   min_x <~ py_min_list xs ;
   max_x <~ py_max_list xs ;
   min_y <~ py_min_list ys ;
   max_y <~ py_max_list ys ;
   ok {| landmarks := lms ;
         handedness := label ;
         confidence := 9 # 10 ;
         boundingBox := {| box_x := min_x ; box_y := min_y ;
                           box_width := max_x - min_x ;
                           box_height := max_y - min_y |} |})%result.

(** The [for idx, hand_landmarks in enumerate(...)] loop. *)
Fixpoint build_hands (handednesses : list (list string)) (idx : nat)
    (hands : list (list MPLandmark)) : Result (list Hand) :=
  match hands with
  | [] => ok []
  | hand_landmarks :: rest =>
      (h <~ build_hand handednesses idx hand_landmarks ;
       hs <~ build_hands handednesses (S idx) rest ;
       ok (h :: hs))%result
  end.

Definition detections_of (results : MPHandsResult) : Result (list Hand) :=
  match multi_hand_landmarks results with
  | Some (first :: more) =>
      build_hands (multi_handedness results) 0 (first :: more)
  | _ => ok []
  end.

Section Service.

Context {X : Externals}.

Definition HandTracker_detect (self : MPHands) (image : Image)
  : Result (list Hand) * MPHands :=
  match hands_process self image with
  | (inl e, self') => (raise e, self')
  | (inr results, self') => (detections_of results, self')
  end.

(** ** Module-level state of server.py (lines 37-40) *)

Record Globals : Type := mkGlobals {
  vision_processor : option VisionProcessor;
  hand_tracker : option MPHands;
  yolo_detector : option YOLOModel;
  pose_estimator : option PoseEstimator
}.

Definition no_models : Globals :=
  {| vision_processor := None ; hand_tracker := None ;
     yolo_detector := None ; pose_estimator := None |}.

(** Code that reads and assigns the globals and may raise. *)
Definition M (A : Type) : Type := Globals -> Result A * Globals.

Definition ret {A} (a : A) : M A := fun g => (ok a, g).
Definition throw {A} (e : PyExc) : M A := fun g => (raise e, g).
Definition lift {A} (r : Result A) : M A := fun g => (r, g).

Definition bind {A B} (m : M A) (k : A -> M B) : M B :=
  fun g =>
    match m g with
    | (inl e, g') => (inl e, g')
    | (inr a, g') => k a g'
    end.

Notation "x <- m ;; k" := (bind m (fun x => k))
  (at level 100, m at next level, right associativity).
Notation "m ;;; k" := (bind m (fun _ => k))
  (at level 100, right associativity).

Definition set_vision_processor (v : VisionProcessor) : M unit :=
  fun g => (ok tt, {| vision_processor := Some v ;
                      hand_tracker := hand_tracker g ;
                      yolo_detector := yolo_detector g ;
                      pose_estimator := pose_estimator g |}).

Definition set_hand_tracker (v : MPHands) : M unit :=
  fun g => (ok tt, {| vision_processor := vision_processor g ;
                      hand_tracker := Some v ;
                      yolo_detector := yolo_detector g ;
                      pose_estimator := pose_estimator g |}).

Definition set_yolo_detector (v : YOLOModel) : M unit :=
  fun g => (ok tt, {| vision_processor := vision_processor g ;
                      hand_tracker := hand_tracker g ;
                      yolo_detector := Some v ;
                      pose_estimator := pose_estimator g |}).

Definition set_pose_estimator (v : PoseEstimator) : M unit :=
  fun g => (ok tt, {| vision_processor := vision_processor g ;
                      hand_tracker := hand_tracker g ;
                      yolo_detector := yolo_detector g ;
                      pose_estimator := Some v |}).

(** ** [startup_event] (server.py, lines 43-71)

    The four constructors run in one [try]; the handler logs and re-raises. *)
Definition startup_event : M unit :=
  let device := if cuda_is_available then "cuda" else "cpu" in
  (v <- lift (CudaVisionProcessor_init device) ;;
   set_vision_processor v ;;;
   h <- lift (HandTracker_init device) ;;
   set_hand_tracker h ;;;
   y <- lift (YOLODetector_init device) ;;
   set_yolo_detector y ;;;
   p <- lift (PoseEstimator_init device) ;;
   set_pose_estimator p).

(** ** [health_check] (server.py, lines 220-233) *)

Record ModelsLoaded : Type := mkLoaded {
  loaded_hand_tracker : bool;
  loaded_yolo_detector : bool;
  loaded_pose_estimator : bool
}.

Record Health : Type := mkHealth {
  health_status : string;
  health_cuda_available : bool;
  health_device : string;
  models_loaded : ModelsLoaded
}.

Definition is_not_None {A} (o : option A) : bool :=
  match o with Some _ => true | None => false end.

Definition health_check (g : Globals) : Health :=
  {| health_status := "healthy" ;
     health_cuda_available := cuda_is_available ;
     health_device := if cuda_is_available then "cuda" else "cpu" ;
     models_loaded :=
       {| loaded_hand_tracker := is_not_None (hand_tracker g) ;
          loaded_yolo_detector := is_not_None (yolo_detector g) ;
          loaded_pose_estimator := is_not_None (pose_estimator g) |} |}.

(** ** [decode_image] (server.py, lines 91-100)

    The [except] clause logs and re-raises, so the function raises whatever
    its body raises.  [base64.b64decode] rejects every JSON value that is not
    a string with [TypeError]. *)
Definition decode_image (base64_image : json) : Result Image :=
  match base64_image with
  | JStr s => b64_imdecode s
  | _ => raise TypeError
  end.

(** ** Messages sent by [websocket_vision] *)

Record DetectionResult : Type := mkDetection {
  det_timestamp : json;
  det_hands : list Hand;
  det_objects : list ObjectDetection;
  det_pose : option PoseData;
  det_control : option ControlSignal
}.

Inductive OutMsg : Type :=
| Detection (results : DetectionResult)
| Pong (timestamp : json)
| ConfigAck (config : json).

(** ** The [frame] branch (server.py, lines 116-169) *)

(** The dictionary rebuilt for each hand (lines 138-148); [float] and
    [tolist] leave the tracker's values as they are. *)
Definition hand_entry (hand : Hand) : Hand :=
  {| landmarks := landmarks hand ;
     handedness := handedness hand ;
     confidence := confidence hand ;
     boundingBox :=
       {| box_x := box_x (boundingBox hand) ;
          box_y := box_y (boundingBox hand) ;
          box_width := box_width (boundingBox hand) ;
          box_height := box_height (boundingBox hand) |} |}.

(** [if hand_tracker: ...], lines 135-150. *)
Definition run_hand_tracker (image : Image) : M (list Hand) :=
  fun g =>
    match hand_tracker g with
    | None => (ok [], g)
    | Some self =>
        let '(r, self') := HandTracker_detect self image in
        (rbind r (fun hands => ok (map hand_entry hands)),
         {| vision_processor := vision_processor g ;
            hand_tracker := Some self' ;
            yolo_detector := yolo_detector g ;
            pose_estimator := pose_estimator g |})
    end.

(** [if yolo_detector and message.get("detectObjects", False): ...]. *)
Definition run_yolo_detector (message : gmap string json) (image : Image)
  : M (list ObjectDetection) :=
  fun g =>
    match yolo_detector g with
    | None => (ok [], g)
    | Some self =>
        if flag message "detectObjects"
        then
          let '(r, self') := YOLODetector_detect self image in
          (r, {| vision_processor := vision_processor g ;
                 hand_tracker := hand_tracker g ;
                 yolo_detector := Some self' ;
                 pose_estimator := pose_estimator g |})
        else (ok [], g)
    end.

(** [if pose_estimator and message.get("detectPose", False): ...]. *)
Definition run_pose_estimator (message : gmap string json) (image : Image)
  : M (option PoseData) :=
  fun g =>
    match pose_estimator g with
    | None => (ok None, g)
    | Some self =>
        if flag message "detectPose"
        then
          let '(r, self') := PoseEstimator_detect self image in
          (r, {| vision_processor := vision_processor g ;
                 hand_tracker := hand_tracker g ;
                 yolo_detector := yolo_detector g ;
                 pose_estimator := Some self' |})
        else (ok None, g)
    end.

(** [if results["hands"]: ...], lines 163-166. *)
Definition control_of (hands : list Hand) (image : Image)
  : Result (option ControlSignal) :=
  match hands with
  | [] => ok None
  | primary_hand :: _ =>
      rbind (calculate_control_signal primary_hand (image_shape image))
            (fun control => ok (Some control))
  end.

(** The body of the [frame] branch; [None] is the [continue] of line 119. *)
Definition process_frame (message : gmap string json)
  : M (option DetectionResult) :=
  let frame_data := dict_get message "data" in
  if negb (truthy frame_data) then ret None
  else
    (image <- lift (decode_image frame_data) ;;
     hands <- run_hand_tracker image ;;
     objects <- run_yolo_detector message image ;;
     pose <- run_pose_estimator message image ;;
     control <- lift (control_of hands image) ;;
     ret (Some {| det_timestamp := dict_get message "timestamp" ;
                  det_hands := hands ;
                  det_objects := objects ;
                  det_pose := pose ;
                  det_control := control |})).

(** ** One turn of the [while True] loop (server.py, lines 110-179) *)

(** What [receive_text] delivers: a text whose [json.loads] value is
    [parsed] ([None] when [json.loads] raises), or the peer's disconnect. *)
Inductive Incoming : Type :=
| Received (parsed : option json)
| PeerDisconnect.

(** The messages sent while handling one parsed message.  Calling [.get] on
    a value that is not a dictionary raises [AttributeError]. *)
Definition handle_message (message : json) : M (list OutMsg) :=
  match message with
  | JObj m =>
      if type_is m "frame" then
        (r <- process_frame m ;;
         ret (match r with
              | Some results => [Detection results]
              | None => []
              end))
      else if type_is m "ping" then
        ret [Pong (dict_get m "timestamp")]
      else if type_is m "config" then
        ret [ConfigAck (default (JObj ∅) (m !! "config"))]
      else ret []
  | _ => throw AttributeError
  end.

(** Where the handler stands: still in the loop ([Open]), left through
    [except WebSocketDisconnect] ([Closing]), or left through
    [except Exception], which logs and closes the socket ([Faulted]). *)
Inductive Status : Type :=
| Open
| Closing
| Faulted (e : PyExc).

Record Conn : Type := mkConn {
  status : Status;
  sent : list OutMsg;
  models : Globals
}.

Definition accept (g : Globals) : Conn :=
  {| status := Open ; sent := [] ; models := g |}.

Definition step (c : Conn) (ev : Incoming) : Conn :=
  match status c with
  | Open =>
      match ev with
      | PeerDisconnect =>
          {| status := Closing ; sent := sent c ; models := models c |}
      | Received None =>
          {| status := Faulted JSONDecodeError ; sent := sent c ;
             models := models c |}
      | Received (Some message) =>
          match handle_message message (models c) with
          | (inl e, g') =>
              {| status := Faulted e ; sent := sent c ; models := g' |}
          | (inr out, g') =>
              {| status := Open ; sent := sent c ++ out ; models := g' |}
          end
      end
  | _ => c
  end.

(** [websocket_vision] on the messages a client sends after the accept. *)
Definition websocket_vision (g : Globals) (events : list Incoming) : Conn :=
  fold_left step events (accept g).

End Service.

(** ** Shapes of landmark lists *)

(** [l[i]] exists. *)
Definition has_coord (i : nat) (l : Landmark) : bool := (i <? length l)%nat.

(** Every landmark is a 2D point [[x, y]], or every landmark carries at
    least [[x, y, z]].  The code takes the first landmark as representative
    of the whole list (line 203), and the tracker builds [[x, y, z]] for
    every landmark, so this is the shape of a list of landmarks. *)
Definition well_shaped (lms : list Landmark) : bool :=
  forallb (fun l => (length l =? 2)%nat) lms || forallb (has_coord 2) lms.

(** The landmark lists on which [calculate_control_signal] reaches its
    [return]: at least one landmark, [x] and [y] everywhere, and [z]
    everywhere as soon as the first landmark has one. *)
Definition derivable (lms : list Landmark) : bool :=
  match lms with
  | [] => false
  | first :: _ =>
      forallb (has_coord 1) lms
      && (if has_coord 2 first then forallb (has_coord 2) lms else true)
  end.

(** Coordinate [i] of every landmark ([0] where a landmark has none). *)
Definition coords (i : nat) (lms : list Landmark) : list Q :=
  map (fun l => nth i l 0%Q) lms.


(** [sum(l[i] for l in landmarks)] when every landmark has coordinate [i]. *)
Definition total (i : nat) (lms : list Landmark) : Q :=
  fold_left Qplus (coords i lms) 0%Q.

(** The dictionary [calculate_control_signal] returns when it returns. *)
Definition signal_of (lms : list Landmark) : ControlSignal :=
  let n := inject_Z (Z.of_nat (length lms)) in
  let avg_z :=
    match lms with
    | first :: _ => if has_coord 2 first then (total 2 lms / n)%Q else 0%Q
    | [] => 0%Q
    end in
  let thrust := py_max 0 (py_min 1 (1 - (avg_z + (1 # 2))))%Q in
  {| direction := {| dir_x := (total 0 lms / n - (1 # 2)) * 2 ;
                     dir_y := ((1 # 2) - total 1 lms / n) * 2 |}%Q ;
     thrust := thrust ;
     action := gesture (length lms) thrust |}.

(** ** The derivation as the specification words it (section 4.5)

    [spec_mean], [spec_clamp] and the [spec_] fields follow the text of the
    specification, not the code; they are what the code is compared with. *)








(** ** A small laboratory instance of the outside world

    Test doubles for the libraries.  The codec knows one image, [lab_png]:
    the base64 text of a complete PNG file of one red pixel (signature, IHDR
    1 x 1 x 8-bit RGB, IDAT, IEND, check sums in place), which OpenCV decodes
    to an array of shape (1, 1, 3).  Every other payload is refused with
    OpenCV's error, as [decode_image] does for a text that is no image file:
    ["!!"] leaves an empty buffer, and a text such as ["aGVsbG8="] decodes to
    bytes that are no image, so that [cv2.imdecode] gives [None] and
    [cv2.cvtColor] raises.  The hand model reports one open hand in the
    middle of the image and the object model one person, whatever the image.
    [yolo_installed] is [YOLO_AVAILABLE] of yolo_detector.py, whose
    constructor raises [ImportError] without it. *)

Definition lab_png : string :=
  "iVBORw0KGgoAAAANSUhEUgAAAAEAAAABCAIAAACQd1PeAAAADElEQVR42mP4z8AAAAMBAQD3A0FDAAAAAElFTkSuQmCC".

Definition lab_landmark : MPLandmark :=
  {| mp_x := 1 # 2 ; mp_y := 1 # 2 ; mp_z := 0 |}.

Definition lab_hands : MPHandsResult :=
  {| multi_hand_landmarks := Some [repeat lab_landmark 21] ;
     multi_handedness := [["Right"]] |}.

Definition lab_person : ObjectDetection :=
  {| obj_class := "person" ; obj_classId := 0 ; obj_confidence := 9 # 10 ;
     obj_boundingBox := {| box_x := 10 ; box_y := 20 ;
                           box_width := 100 ; box_height := 200 |} |}.

Definition lab (yolo_installed : bool) : Externals :=
  {| Image := string ;
     image_shape := fun _ => [1; 1; 3]%nat ;
     b64_imdecode := fun s =>
       if String.eqb s lab_png then ok s else raise (LibraryError "cv2.error") ;
     cuda_is_available := false ;
     VisionProcessor := unit ;
     MPHands := unit ;
     YOLOModel := unit ;
     PoseEstimator := unit ;
     PoseData := unit ;
     CudaVisionProcessor_init := fun _ => ok tt ;
     HandTracker_init := fun _ => ok tt ;
     YOLODetector_init := fun _ =>
       if yolo_installed : bool then ok tt
       else raise ImportError ;
     PoseEstimator_init := fun _ => ok tt ;
     hands_process := fun self _ => (ok lab_hands, self) ;
     YOLODetector_detect := fun self _ => (ok [lab_person], self) ;
     PoseEstimator_detect := fun self _ => (ok None, self) |}.

(** Globals after a successful start of the laboratory instance. *)
Definition lab_models : @Globals (lab true) :=
  @mkGlobals (lab true) (Some tt) (Some tt) (Some tt) (Some tt).

Definition obj (fields : list (string * json)) : gmap string json :=
  list_to_map fields.

Definition msg (fields : list (string * json)) : json := JObj (obj fields).

(** The client sends these JSON texts, one after the other. *)
Definition texts (messages : list json) : list Incoming :=
  map (fun j => Received (Some j)) messages.

Definition lab_frame : json :=
  msg [("type", JStr "frame"); ("data", JStr lab_png); ("timestamp", JNum 1)].


Definition lab_bad_frame : json :=
  msg [("type", JStr "frame"); ("data", JStr "!!"); ("timestamp", JNum 1)].




(** What the laboratory instance answers to [lab_frame]. *)
Definition lab_hand : Hand :=
  {| landmarks := repeat [1 # 2; 1 # 2; 0]%Q 21 ;
     handedness := "Right" ;
     confidence := 9 # 10 ;
     boundingBox := {| box_x := 1 # 2 ; box_y := 1 # 2 ;
                       box_width := (1 # 2) - (1 # 2) ;
                       box_height := (1 # 2) - (1 # 2) |}%Q |}.

Definition lab_detection (objects : list ObjectDetection)
  : @DetectionResult (lab true) :=
  @mkDetection (lab true) (JNum 1) [lab_hand] objects None
               (Some (signal_of (landmarks lab_hand))).

(** A hand dictionary with the given landmarks. *)
Definition hand_of (lms : list Landmark) : Hand :=
  {| landmarks := lms ; handedness := "Right" ; confidence := 9 # 10 ;
     boundingBox := {| box_x := 0 ; box_y := 0 ;
                       box_width := 0 ; box_height := 0 |} |}.

(** ** Predicates on sessions *)

(** The invariant of a sent message: a detection result has a control signal
    exactly when it has a hand. *)
Definition control_iff_hands {X : Externals} (o : OutMsg) : Prop :=
  match o with
  | Detection results => det_control results <> None <-> det_hands results <> []
  | _ => True
  end.


(** Case analysis on the next call that may raise. *)
Ltac returns r x :=
  destruct r as [? | x]; cbn [rbind raise ok]; [discriminate|].

(** ** [YOLODetector.detect] (yolo_detector.py, lines 45-74)

    [self.model(image, conf=..., device=...)] is Ultralytics' business; what
    follows is the loop that turns its results into detection dictionaries. *)

(** The exception of a dictionary lookup on a missing key. *)
Definition KeyError : PyExc := LibraryError "KeyError".

(** [int(x)] on a float: truncation towards zero. *)
Definition py_int (q : Q) : Z := Z.quot (Qnum q) (Z.pos (Qden q)).

(** One box of a result: the tensors [xyxy] (rows of coordinates), [conf]
    and [cls]. *)
Record YoloBox : Type := mkYoloBox {
  xyxy : list (list Q);
  conf : list Q;
  cls : list Q
}.

Record YoloResult : Type := mkYoloResult {
  boxes : option (list YoloBox)
}.

(** [x1, y1, x2, y2 = row]. *)
Definition unpack4 (row : list Q) : Result (Q * Q * Q * Q) :=
  match row with
  | [x1; y1; x2; y2] => ok (x1, y1, x2, y2)
  | _ => raise ValueError
  end.

(** [names[class_id]]. *)
Definition class_name_of (names : gmap Z string) (class_id : Z)
  : Result string :=
  match names !! class_id with
  | Some name => ok name
  | None => raise KeyError
  end.

(** The body of [for box in boxes] (lines 57-73). *)
Definition yolo_entry (names : gmap Z string) (box : YoloBox)
  : Result ObjectDetection :=
  (row <~ py_index (xyxy box) 0 ;
   corners <~ unpack4 row ;
   let '(x1, y1, x2, y2) := corners in
   confidence <~ py_index (conf box) 0 ;
   k <~ py_index (cls box) 0 ;
   let class_id := py_int k in
   class_name <~ class_name_of names class_id ;
   ok {| obj_class := class_name ;
         obj_classId := class_id ;
         obj_confidence := confidence ;
         obj_boundingBox := {| box_x := x1 ; box_y := y1 ;
                               box_width := x2 - x1 ;
                               box_height := y2 - y1 |}%Q |})%result.

Fixpoint yolo_boxes (names : gmap Z string) (bs : list YoloBox)
  : Result (list ObjectDetection) :=
  match bs with
  | [] => ok []
  | box :: rest =>
      (d <~ yolo_entry names box ;
       ds <~ yolo_boxes names rest ;
       ok (d :: ds))%result
  end.

(** The [for result in results] loop; a result whose [boxes] is [None] adds
    nothing. *)
Fixpoint yolo_detections (names : gmap Z string) (results : list YoloResult)
  : Result (list ObjectDetection) :=
  match results with
  | [] => ok []
  | result :: rest =>
      match boxes result with
      | None => yolo_detections names rest
      | Some bs =>
          (ds <~ yolo_boxes names bs ;
           more <~ yolo_detections names rest ;
           ok (ds ++ more)%list)%result
      end
  end.

(** Every box of the results, in the order the loops visit them. *)
Definition all_boxes (results : list YoloResult) : list YoloBox :=
  concat (map (fun r => default [] (boxes r)) results).

(** ** [PoseEstimator.detect] (pose_estimator.py, lines 38-93)

    [self.pose.process(rgb_image)] is MediaPipe's business; [pose_landmarks]
    is what it found: [None], or a landmark list message (an object, hence
    true in the test of line 49, whatever it holds). *)

Record PosePoint : Type := mkPosePoint {
  pose_x : Q;
  pose_y : Q;
  pose_z : Q;
  pose_visibility : Q
}.

Record KeyPoints : Type := mkKeyPoints {
  nose : PosePoint;
  leftShoulder : PosePoint;
  rightShoulder : PosePoint;
  leftElbow : PosePoint;
  rightElbow : PosePoint;
  leftWrist : PosePoint;
  rightWrist : PosePoint;
  leftHip : PosePoint;
  rightHip : PosePoint;
  leftKnee : PosePoint;
  rightKnee : PosePoint;
  leftAnkle : PosePoint;
  rightAnkle : PosePoint
}.

Record Point2 : Type := mkPoint2 {
  pt_x : Q;
  pt_y : Q
}.

Record PoseDict : Type := mkPoseDict {
  pose_landmarks : list PosePoint;
  keyPoints : KeyPoints;
  headPosition : Point2;
  bodyCenter : Point2
}.

(** The dictionary literal of lines 63-77. *)
Definition key_points_of (lms : list PosePoint) : Result KeyPoints :=
  (p0 <~ py_index lms 0 ;
   p11 <~ py_index lms 11 ;
   p12 <~ py_index lms 12 ;
   p13 <~ py_index lms 13 ;
   p14 <~ py_index lms 14 ;
   p15 <~ py_index lms 15 ;
   p16 <~ py_index lms 16 ;
   p23 <~ py_index lms 23 ;
   p24 <~ py_index lms 24 ;
   p25 <~ py_index lms 25 ;
   p26 <~ py_index lms 26 ;
   p27 <~ py_index lms 27 ;
   p28 <~ py_index lms 28 ;
   ok {| nose := p0 ; leftShoulder := p11 ; rightShoulder := p12 ;
         leftElbow := p13 ; rightElbow := p14 ;
         leftWrist := p15 ; rightWrist := p16 ;
         leftHip := p23 ; rightHip := p24 ;
         leftKnee := p25 ; rightKnee := p26 ;
         leftAnkle := p27 ; rightAnkle := p28 |})%result.

(** Lines 49-93, given what MediaPipe found. *)
Definition pose_of (found : option (list PosePoint))
  : Result (option PoseDict) :=
  match found with
  | None => ok None
  | Some lms =>
      (key_points <~ key_points_of lms ;
       head <~ py_index lms 0 ;
       l11 <~ py_index lms 11 ;
       l12 <~ py_index lms 12 ;
       ok (Some
             {| pose_landmarks := lms ;
                keyPoints := key_points ;
                headPosition := {| pt_x := pose_x head ; pt_y := pose_y head |} ;
                bodyCenter :=
                  {| pt_x := (pose_x l11 + pose_x l12) / 2 ;
                     pt_y := (pose_y l11 + pose_y l12) / 2 |}%Q |}))%result
  end.

(** ** [ControllerService] (sim-controller/main.py, lines 18-50) *)

Record AudioEvent : Type := mkAudioEvent {
  event_type : string;
  event_value : Q
}.

Record SimulationCommand : Type := mkCommand {
  target_agent : string;
  command_action : string;
  parameters : gmap string string
}.

(** The two stubs of the controller. *)
Inductive Agent : Type := RobotArm | Lighting.

(** What [stub.ExecuteCommand(command)] does: it returns a response with its
    [success] field, raises [grpc.RpcError], or raises something else. *)
Inductive StubOutcome : Type :=
| Responded (success : bool)
| RpcError
| Raised (e : PyExc).

Section Controller.

(** [str(x)] on a float, and the two agents behind the stubs. *)
Variable str_of_float : Q -> string.
Variable stub : Agent -> SimulationCommand -> StubOutcome.

(** [_send_command]: the call made on a stub, and how the function ends;
    only [grpc.RpcError] is caught. *)
Definition _send_command (agent : Agent) (agent_name action : string)
    (params : gmap string string)
  : list (Agent * SimulationCommand) * Result unit :=
  let command := {| target_agent := agent_name ;
                    command_action := action ;
                    parameters := params |} in
  ([(agent, command)],
   match stub agent command with
   | Responded _ => ok tt
   | RpcError => ok tt
   | Raised e => raise e
   end).

(** [PublishAudioEvent]: the calls made on the stubs, and the [success]
    field of the [EventResponse] it returns. *)
Definition PublishAudioEvent (request : AudioEvent)
  : list (Agent * SimulationCommand) * Result bool :=
  if String.eqb (event_type request) "BEAT" then
    let '(calls, r) :=
      _send_command RobotArm "robot-arm" "DANCE"
        {[ "intensity" := str_of_float (event_value request) ]} in
    (calls, rbind r (fun _ => ok true))
  else if String.eqb (event_type request) "PITCH_CHANGE" then
    let '(calls, r) :=
      _send_command Lighting "lighting" "CHANGE_COLOR"
        {[ "pitch" := str_of_float (event_value request) ]} in
    (calls, rbind r (fun _ => ok true))
  else ([], ok true).

End Controller.

(** A message the loop passes over: a dictionary whose [type] is none of the
    three known ones, or a frame without payload. *)
Definition passed_over {X : Externals} (ev : Incoming) : bool :=
  match ev with
  | Received (Some (JObj m)) =>
      if type_is m "frame" then negb (truthy (dict_get m "data"))
      else negb (type_is m "ping" || type_is m "config")
  | _ => false
  end.


(** Case analysis on every index the function reads. *)
Ltac read_landmarks lms :=
  repeat match goal with
         | |- context [nth_error lms ?i] =>
             let H := fresh "Hread" in
             destruct (nth_error lms i) eqn:H; cbn [rbind ok raise]
         end.

(** * Properties *)

(** ** Rational arithmetic *)

Lemma Qlt_bool_iff (a b : Q) : Qlt_bool a b = true <-> (a < b)%Q.
Proof. unfold Qlt_bool, Qlt. apply Z.ltb_lt. Qed.

Lemma Qlt_bool_ge (a b : Q) : Qlt_bool a b = false <-> (b <= a)%Q.
Proof. unfold Qlt_bool, Qle. apply Z.ltb_ge. Qed.



Lemma py_clamp_bounds (v : Q) :
  (0 <= py_max 0 (py_min 1 v) /\ py_max 0 (py_min 1 v) <= 1)%Q.
Proof.
  unfold py_max, py_min.
  destruct (Qlt_bool v 1) eqn:H1;
    [ apply Qlt_bool_iff in H1 | apply Qlt_bool_ge in H1 ];
    match goal with
    | |- context [Qlt_bool 0 ?b] =>
        destruct (Qlt_bool 0 b) eqn:H2;
        [ apply Qlt_bool_iff in H2 | apply Qlt_bool_ge in H2 ]
    end; lra.
Qed.






(** ** When and what [calculate_control_signal] returns *)

Lemma py_index_spec (l : Landmark) (i : nat) :
  py_index l i = if has_coord i l then ok (nth i l 0%Q) else raise IndexError.
Proof.
  unfold py_index, has_coord.
  destruct (Nat.ltb_spec i (length l)) as [Hlt | Hge].
  - rewrite (nth_error_nth' l 0%Q Hlt). reflexivity.
  - apply nth_error_None in Hge. rewrite Hge. reflexivity.
Qed.

Lemma sum_coord_spec (i : nat) (lms : list Landmark) (acc : Q) :
  sum_coord i acc lms =
  if forallb (has_coord i) lms
  then ok (fold_left Qplus (coords i lms) acc)
  else raise IndexError.
Proof.
  revert acc. induction lms as [|l lms IH]; intros acc; simpl.
  - reflexivity.
  - rewrite py_index_spec. destruct (has_coord i l); simpl.
    + apply IH.
    + reflexivity.
Qed.

Lemma has_coord_le (i j : nat) (l : Landmark) :
  (i <= j)%nat -> has_coord j l = true -> has_coord i l = true.
Proof.
  unfold has_coord. intros Hij Hj.
  apply Nat.ltb_lt in Hj. apply Nat.ltb_lt. lia.
Qed.

Lemma forallb_has_coord_le (i j : nat) (lms : list Landmark) :
  (i <= j)%nat ->
  forallb (has_coord j) lms = true -> forallb (has_coord i) lms = true.
Proof.
  intros Hij Hj. apply forallb_forall. intros l Hl.
  apply (has_coord_le i j); [assumption|].
  eapply forallb_forall in Hj; eassumption.
Qed.

Lemma calculate_derivable (hand : Hand) (shape : list nat) :
  derivable (landmarks hand) = true ->
  calculate_control_signal hand shape = ok (signal_of (landmarks hand)).
Proof.
  unfold calculate_control_signal, average_z, depth_check, signal_of, total.
  destruct (landmarks hand) as [|first rest] eqn:Hl; [discriminate|].
  set (lms := first :: rest). intros Hd. cbn zeta.
  unfold derivable in Hd. fold lms in Hd.
  apply andb_prop in Hd as [Hxy Hz].
  rewrite !sum_coord_spec, Hxy.
  rewrite (forallb_has_coord_le 0 1 lms) by (lia || assumption).
  change (py_index lms 0) with (ok (A := Landmark) first).
  cbn [rbind ok py_div lms length].
  change (2 <? length first)%nat with (has_coord 2 first).
  destruct (has_coord 2 first).
  - rewrite Hz. reflexivity.
  - reflexivity.
Qed.

Lemma calculate_not_derivable (hand : Hand) (shape : list nat) :
  derivable (landmarks hand) = false ->
  exists e, calculate_control_signal hand shape = raise e.
Proof.
  unfold calculate_control_signal, average_z, depth_check.
  destruct (landmarks hand) as [|first rest] eqn:Hl.
  - intros _. exists ZeroDivisionError. reflexivity.
  - set (lms := first :: rest). unfold derivable. fold lms.
    cbn zeta. rewrite !sum_coord_spec.
    change (py_index lms 0) with (ok (A := Landmark) first).
    destruct (forallb (has_coord 0) lms);
      [| intros _; exists IndexError; reflexivity].
    destruct (forallb (has_coord 1) lms);
      [| intros _; exists IndexError; reflexivity].
    cbn [rbind ok py_div lms length andb].
    change (2 <? length first)%nat with (has_coord 2 first).
    destruct (has_coord 2 first); [| discriminate].
    intros Hd. rewrite Hd. exists IndexError. reflexivity.
Qed.

Lemma calculate_returns (hand : Hand) (shape : list nat) (c : ControlSignal) :
  calculate_control_signal hand shape = ok c ->
  derivable (landmarks hand) = true /\ c = signal_of (landmarks hand).
Proof.
  intros Hc. destruct (derivable (landmarks hand)) eqn:Hd.
  - rewrite (calculate_derivable hand shape Hd) in Hc.
    unfold ok in Hc. split; [reflexivity | congruence].
  - destruct (calculate_not_derivable hand shape Hd) as [e He].
    rewrite He in Hc. discriminate.
Qed.

Lemma well_shaped_derivable (lms : list Landmark) :
  lms <> [] -> well_shaped lms = true -> derivable lms = true.
Proof.
  destruct lms as [|first rest]; [congruence|]. intros _.
  unfold well_shaped, derivable. set (lms := first :: rest).
  intros H. apply orb_prop in H as [Hflat | Hdeep].
  - assert (Hxy : forallb (has_coord 1) lms = true).
    { apply forallb_forall. intros l Hin.
      eapply forallb_forall in Hflat; [|exact Hin].
      apply Nat.eqb_eq in Hflat. unfold has_coord. rewrite Hflat. reflexivity. }
    rewrite Hxy.
    assert (Hf : length first = 2%nat).
    { apply Nat.eqb_eq.
      apply (proj1 (forallb_forall _ lms) Hflat first). left. reflexivity. }
    unfold has_coord. rewrite Hf. reflexivity.
  - rewrite (forallb_has_coord_le 1 2 lms) by (lia || assumption).
    rewrite Hdeep. destruct (has_coord 2 first); reflexivity.
Qed.



(** ** Hands built by [HandTracker.detect] *)

Lemma build_hand_landmarks (handednesses : list (list string)) (idx : nat)
    (hand_landmarks : list MPLandmark) (h : Hand) :
  build_hand handednesses idx hand_landmarks = ok h ->
  hand_landmarks <> []
  /\ landmarks h = map (fun lm => [mp_x lm; mp_y lm; mp_z lm]) hand_landmarks.
Proof.
  unfold build_hand.
  returns (py_index handednesses idx) classification.
  returns (py_index classification 0) label.
  destruct hand_landmarks as [|lm more].
  - discriminate.
  - set (lms := map _ (lm :: more)).
    returns (column 0 lms) xs.
    returns (column 1 lms) ys.
    returns (py_min_list xs) min_x.
    returns (py_max_list xs) max_x.
    returns (py_min_list ys) min_y.
    returns (py_max_list ys) max_y.
    intros H. injection H as <-. split; [discriminate | reflexivity].
Qed.

Lemma build_hand_derivable (handednesses : list (list string)) (idx : nat)
    (hand_landmarks : list MPLandmark) (h : Hand) :
  build_hand handednesses idx hand_landmarks = ok h ->
  derivable (landmarks h) = true.
Proof.
  intros H. apply build_hand_landmarks in H as [Hne ->].
  apply well_shaped_derivable.
  - destruct hand_landmarks; [congruence | discriminate].
  - unfold well_shaped. apply orb_true_iff. right.
    apply forallb_forall. intros l Hl.
    apply in_map_iff in Hl as (lm & <- & _). reflexivity.
Qed.

Lemma build_hands_derivable (handednesses : list (list string))
    (found : list (list MPLandmark)) (idx : nat) (hands : list Hand) :
  build_hands handednesses idx found = ok hands ->
  Forall (fun h => derivable (landmarks h) = true) hands.
Proof.
  revert idx hands. induction found as [|hand_landmarks found IH];
    intros idx hands; cbn [build_hands].
  - intros H. injection H as <-. constructor.
  - destruct (build_hand handednesses idx hand_landmarks) as [e | h] eqn:Hh;
      cbn [rbind]; [discriminate|].
    destruct (build_hands handednesses (S idx) found) as [e | hs] eqn:Hhs;
      cbn [rbind]; [discriminate|].
    intros H. injection H as <-. constructor.
    + exact (build_hand_derivable _ _ _ _ Hh).
    + exact (IH _ _ Hhs).
Qed.

(** The caller of [calculate_control_signal] meets its precondition: on the
    hands the tracker returns, lines 163-166 of server.py never raise. *)
Lemma control_of_tracker_hands {X : Externals} (results : MPHandsResult)
    (hands : list Hand) (image : Image) :
  detections_of results = ok hands ->
  exists control, control_of (map hand_entry hands) image = ok control.
Proof.
  intros H.
  assert (Hall : Forall (fun h => derivable (landmarks h) = true) hands).
  { unfold detections_of in H.
    destruct (multi_hand_landmarks results) as [[|first more]|].
    - injection H as <-. constructor.
    - exact (build_hands_derivable _ _ _ _ H).
    - injection H as <-. constructor. }
  destruct Hall as [|h hs Hd _]; cbn [map control_of].
  - eexists. reflexivity.
  - rewrite (calculate_derivable (hand_entry h) _ Hd). eexists. reflexivity.
Qed.

(** ** The control signal *)











(** The thrust does not decide the action of a short hand: twenty close
    landmarks give thrust [1] and still [IDLE]. *)
Example twenty_close_landmarks :
  exists d,
    calculate_control_signal (hand_of (repeat [1 # 2; 1 # 2; -(1 # 2)]%Q 20))
                             [480; 640; 3]%nat
    = ok {| direction := d ; thrust := 1 ; action := IDLE |}.
Proof. eexists. reflexivity. Qed.

(** The scenario of the specification: a full hand centred at [(0.5, 0.5)]
    with depth [0] gives direction [(0, 0)], thrust [0.5] and [IDLE]. *)
Example centred_hand :
  exists c,
    calculate_control_signal (hand_of (repeat [1 # 2; 1 # 2; 0]%Q 21))
                             [480; 640; 3]%nat = ok c
    /\ (dir_x (direction c) == 0)%Q
    /\ (dir_y (direction c) == 0)%Q
    /\ (thrust c == 1 # 2)%Q
    /\ action c = IDLE.
Proof. eexists. split; [reflexivity|]. repeat split. Qed.



(** ** The session handler *)

Section ServiceProperties.

Context {X : Externals}.



Lemma handle_frame (m : gmap string json) (g : Globals) :
  type_is m "frame" = true ->
  handle_message (JObj m) g =
  match process_frame m g with
  | (inl e, g') => (raise e, g')
  | (inr (Some results), g') => (ok [Detection results], g')
  | (inr None, g') => (ok [], g')
  end.
Proof.
  intros Hm. unfold handle_message, bind, ret. rewrite Hm.
  destruct (process_frame m g) as [[e | [d |]] g']; reflexivity.
Qed.



(** A connection that left the loop ignores whatever else arrives. *)
Lemma left_loop_is_final (c : Conn) (events : list Incoming) :
  status c <> Open -> fold_left step events c = c.
Proof.
  intros Hc. induction events as [|ev events IH]; simpl.
  - reflexivity.
  - assert (Hs : step c ev = c).
    { unfold step. destruct (status c); [congruence | reflexivity..]. }
    rewrite Hs. exact IH.
Qed.



(** What a frame that produced a result went through. *)
Lemma process_frame_returns (m : gmap string json) (g g' : Globals)
    (d : DetectionResult) :
  process_frame m g = (ok (Some d), g') ->
  exists image,
    truthy (dict_get m "data") = true
    /\ decode_image (dict_get m "data") = ok image
    /\ control_of (det_hands d) image = ok (det_control d)
    /\ det_timestamp d = dict_get m "timestamp".
Proof.
  unfold process_frame, bind, lift, ret.
  destruct (truthy (dict_get m "data")); cbn [negb]; [|discriminate].
  destruct (decode_image (dict_get m "data")) as [e | image]; [discriminate|].
  destruct (run_hand_tracker image g) as [[e | hands] g1]; [discriminate|].
  destruct (run_yolo_detector m image g1) as [[e | objects] g2]; [discriminate|].
  destruct (run_pose_estimator m image g2) as [[e | pose] g3]; [discriminate|].
  destruct (control_of hands image) as [e | control] eqn:Hc; [discriminate|].
  intros H. injection H as <- _. exists image. auto.
Qed.

Lemma control_of_returns (hands : list Hand) (image : Image)
    (control : option ControlSignal) :
  control_of hands image = ok control -> (control <> None <-> hands <> []).
Proof.
  unfold control_of. destruct hands as [|primary_hand others].
  - intros H. injection H as <-. split; congruence.
  - destruct (calculate_control_signal primary_hand (image_shape image));
      cbn; [discriminate|].
    intros H. injection H as <-. split; congruence.
Qed.

Lemma step_keeps_invariant (c : Conn) (ev : Incoming) :
  Forall control_iff_hands (sent c) ->
  Forall control_iff_hands (sent (step c ev)).
Proof.
  intros Hc. unfold step.
  destruct (status c); [| exact Hc..].
  destruct ev as [[message|]|]; cbn [sent]; try exact Hc.
  destruct (handle_message message (models c)) as [[e | out] g'] eqn:Hm;
    cbn [sent]; [exact Hc|].
  apply Forall_app. split; [exact Hc|].
  destruct message as [| | | | |m]; try discriminate.
  unfold handle_message in Hm.
  destruct (type_is m "frame").
  - unfold bind, ret in Hm.
    destruct (process_frame m (models c)) as [[e | [d|]] g1] eqn:Hp;
      try discriminate; injection Hm as <- _.
    + constructor; [|constructor].
      destruct (process_frame_returns _ _ _ _ Hp) as (image & _ & _ & Hctl & _).
      exact (control_of_returns _ _ _ Hctl).
    + constructor.
  - destruct (type_is m "ping"); [|destruct (type_is m "config")];
      injection Hm as <- _; repeat constructor.
Qed.

Lemma run_keeps_invariant (events : list Incoming) (c : Conn) :
  Forall control_iff_hands (sent c) ->
  Forall control_iff_hands (sent (fold_left step events c)).
Proof.
  revert c. induction events as [|ev events IH]; intros c Hc; simpl.
  - exact Hc.
  - apply IH, step_keeps_invariant, Hc.
Qed.

Lemma decode_failure_raises (m : gmap string json) (g : Globals) (e : PyExc) :
  truthy (dict_get m "data") = true ->
  decode_image (dict_get m "data") = raise e ->
  process_frame m g = (raise e, g).
Proof.
  intros Ht Hd. unfold process_frame, bind, lift.
  rewrite Ht, Hd. reflexivity.
Qed.

Lemma step_frame_raises (c : Conn) (m : gmap string json) (e : PyExc)
    (g' : Globals) :
  status c = Open ->
  type_is m "frame" = true ->
  process_frame m (models c) = (raise e, g') ->
  step c (Received (Some (JObj m)))
  = {| status := Faulted e ; sent := sent c ; models := g' |}.
Proof.
  intros Hopen Hm Hp. unfold step.
  rewrite Hopen, (handle_frame m (models c) Hm), Hp. reflexivity.
Qed.


(** C4.  In every detection result [websocket_vision] sends, whatever the
    client sent before, [control] is present exactly when [hands] is
    non-empty. *)
Theorem control_present_iff_hands (g : Globals) (events : list Incoming) :
  Forall control_iff_hands (sent (websocket_vision g events)).
Proof.
  unfold websocket_vision. apply run_keeps_invariant. constructor.
Qed.

(** C1, as the code has it.  While the session is [Open], a frame message
    whose [data] is missing or empty is skipped and the session stays
    [Open]; but when decoding the payload raises, or anything else in the
    processing of the frame raises, nothing is sent for the frame and the
    exception leaves the receive loop: the handler logs it and closes the
    socket ([Faulted]), and no later message is handled. *)
Theorem frame_failure_faults_session (c : Conn) (m : gmap string json) :
  status c = Open ->
  type_is m "frame" = true ->
  let c' := step c (Received (Some (JObj m))) in
  (truthy (dict_get m "data") = false ->
   status c' = Open /\ sent c' = sent c /\ models c' = models c)
  /\ (forall e,
         truthy (dict_get m "data") = true ->
         decode_image (dict_get m "data") = raise e ->
         status c' = Faulted e /\ sent c' = sent c)
  /\ (forall e g',
         process_frame m (models c) = (raise e, g') ->
         status c' = Faulted e /\ sent c' = sent c
         /\ forall events, fold_left step events c' = c').
Proof.
  intros Hopen Hm c'. split; [|split].
  - intros Ht. subst c'. unfold step.
    rewrite Hopen, (handle_frame m (models c) Hm).
    unfold process_frame, ret. rewrite Ht. cbn.
    rewrite app_nil_r. auto.
  - intros e Ht Hd. subst c'.
    rewrite (step_frame_raises c m e (models c) Hopen Hm
               (decode_failure_raises m (models c) e Ht Hd)).
    auto.
  - intros e g' Hp. subst c'.
    rewrite (step_frame_raises c m e g' Hopen Hm Hp).
    repeat split. intros events. apply left_loop_is_final. discriminate.
Qed.



(** C2, as the code has it.  [startup_event] runs the four constructors in
    one [try] and re-raises: when one of them raises, startup raises the same
    exception and does not complete; the globals assigned before the failing
    constructor stay assigned, the failing one and those after it keep the
    value they had ([None] at process start).  Startup completes only when
    all four constructors return, and then every global is set. *)
Theorem startup_is_all_or_raise (g : Globals) :
  let device := if cuda_is_available then "cuda" else "cpu" in
  (forall e,
      CudaVisionProcessor_init device = raise e ->
      startup_event g = (raise e, g))
  /\ (forall v e,
         CudaVisionProcessor_init device = ok v ->
         HandTracker_init device = raise e ->
         startup_event g
         = (raise e, mkGlobals (Some v) (hand_tracker g) (yolo_detector g)
                               (pose_estimator g)))
  /\ (forall v h e,
         CudaVisionProcessor_init device = ok v ->
         HandTracker_init device = ok h ->
         YOLODetector_init device = raise e ->
         startup_event g
         = (raise e, mkGlobals (Some v) (Some h) (yolo_detector g)
                               (pose_estimator g)))
  /\ (forall v h y e,
         CudaVisionProcessor_init device = ok v ->
         HandTracker_init device = ok h ->
         YOLODetector_init device = ok y ->
         PoseEstimator_init device = raise e ->
         startup_event g
         = (raise e, mkGlobals (Some v) (Some h) (Some y) (pose_estimator g)))
  /\ (fst (startup_event g) = ok tt <->
      exists v h y p,
        CudaVisionProcessor_init device = ok v
        /\ HandTracker_init device = ok h
        /\ YOLODetector_init device = ok y
        /\ PoseEstimator_init device = ok p
        /\ snd (startup_event g)
           = mkGlobals (Some v) (Some h) (Some y) (Some p)).
Proof.
  intros device. unfold startup_event. fold device.
  unfold bind, lift, set_vision_processor, set_hand_tracker,
    set_yolo_detector, set_pose_estimator.
  repeat split.
  - intros e ->. reflexivity.
  - intros v e -> ->. reflexivity.
  - intros v h e -> -> ->. reflexivity.
  - intros v h y e -> -> -> ->. reflexivity.
  - destruct (CudaVisionProcessor_init device) as [e | v]; [discriminate|].
    destruct (HandTracker_init device) as [e | h]; [discriminate|].
    destruct (YOLODetector_init device) as [e | y]; [discriminate|].
    destruct (PoseEstimator_init device) as [e | p]; [discriminate|].
    intros _. exists v, h, y, p. repeat split.
  - intros (v & h & y & p & -> & -> & -> & -> & _). reflexivity.
Qed.

End ServiceProperties.

(** ** The claims at concrete inputs *)

Lemma frame_failure_faults_session_witness :
  let c := accept lab_models in
  let m := obj [("type", JStr "frame"); ("data", JStr "!!");
                ("timestamp", JNum 1)] in
  let c' := step c (Received (Some (JObj m))) in
  status c = Open
  /\ type_is m "frame" = true
  /\ truthy (dict_get m "data") = true
  /\ decode_image (X := lab true) (dict_get m "data")
     = raise (LibraryError "cv2.error")
  /\ status c' = Faulted (LibraryError "cv2.error")
  /\ sent c' = sent c.
Proof.
  intros c m c'.
  assert (Hopen : status c = Open) by reflexivity.
  assert (Hm : type_is m "frame" = true) by (vm_compute; reflexivity).
  assert (Ht : truthy (dict_get m "data") = true) by (vm_compute; reflexivity).
  assert (Hd : decode_image (X := lab true) (dict_get m "data")
               = raise (LibraryError "cv2.error")) by (vm_compute; reflexivity).
  split; [exact Hopen|]. split; [exact Hm|]. split; [exact Ht|].
  split; [exact Hd|].
  exact (proj1 (proj2 (frame_failure_faults_session c m Hopen Hm))
           (LibraryError "cv2.error") Ht Hd).
Defined.

(** C1 as stated fails: a frame whose payload does not decode moves the open
    session to [Faulted], and the frame sent after it gets no answer. *)
Lemma undecodable_frame_ends_session :
  let c := step (accept lab_models) (Received (Some lab_bad_frame)) in
  status (accept lab_models) = Open
  /\ decode_image (X := lab true) (JStr "!!") = raise (LibraryError "cv2.error")
  /\ status c = Faulted (LibraryError "cv2.error")
  /\ status c <> Open
  /\ sent (websocket_vision lab_models (texts [lab_bad_frame; lab_frame])) = []
  /\ status (step (accept lab_models)
                  (Received (Some (msg [("type", JStr "frame");
                                        ("data", JNum 5)]))))
     = Faulted TypeError.
Proof.
  vm_compute. repeat split; discriminate.
Qed.

Lemma startup_is_all_or_raise_witness :
  CudaVisionProcessor_init (Externals := lab false) "cpu" = ok tt
  /\ HandTracker_init (Externals := lab false) "cpu" = ok tt
  /\ YOLODetector_init (Externals := lab false) "cpu" = raise ImportError
  /\ startup_event (X := lab false) no_models
     = (raise ImportError,
        @mkGlobals (lab false) (Some tt) (Some tt) None None).
Proof.
  assert (Hv : CudaVisionProcessor_init (Externals := lab false) "cpu" = ok tt)
    by reflexivity.
  assert (Hh : HandTracker_init (Externals := lab false) "cpu" = ok tt)
    by reflexivity.
  assert (Hy : YOLODetector_init (Externals := lab false) "cpu"
               = raise ImportError) by reflexivity.
  split; [exact Hv|]. split; [exact Hh|]. split; [exact Hy|].
  exact (proj1 (proj2 (proj2 (startup_is_all_or_raise (X := lab false) no_models)))
           tt tt ImportError Hv Hh Hy).
Defined.

(** C2 as stated fails: without the YOLO package the constructor of the
    object detector raises, and [startup_event] raises with it instead of
    completing; the pose estimator, whose constructor would have worked, is
    never built. *)
Lemma missing_yolo_aborts_startup :
  let r := startup_event (X := lab false) no_models in
  YOLODetector_init (Externals := lab false) "cpu" = raise ImportError
  /\ PoseEstimator_init (Externals := lab false) "cpu" = ok tt
  /\ fst r = raise ImportError
  /\ fst r <> ok tt
  /\ models_loaded (health_check (snd r)) = mkLoaded true false false.
Proof.
  vm_compute. repeat split; discriminate.
Qed.





(** * Further properties of the session handler *)

Section SessionProperties.

Context {X : Externals}.

Lemma handle_message_replies (message : json) (g g' : Globals)
    (out : list OutMsg) :
  handle_message message g = (ok out, g') -> (length out <= 1)%nat.
Proof.
  destruct message as [| | | | |m]; try discriminate.
  unfold handle_message.
  destruct (type_is m "frame").
  - unfold bind, ret.
    destruct (process_frame m g) as [[e | [d|]] g1]; try discriminate;
      intros H; injection H as <- _; simpl; lia.
  - destruct (type_is m "ping"); [|destruct (type_is m "config")];
      intros H; injection H as <- _; simpl; lia.
Qed.

Lemma step_sent_grows (c : Conn) (ev : Incoming) :
  exists out, sent (step c ev) = (sent c ++ out)%list /\ (length out <= 1)%nat.
Proof.
  unfold step.
  destruct (status c);
    [| exists []; rewrite app_nil_r; split; [reflexivity | simpl; lia]..].
  destruct ev as [[message|]|]; cbn [sent];
    try (exists []; rewrite app_nil_r; split; [reflexivity | simpl; lia]).
  destruct (handle_message message (models c)) as [[e | out] g'] eqn:Hm;
    cbn [sent].
  - exists []. rewrite app_nil_r. split; [reflexivity | simpl; lia].
  - exists out. split; [reflexivity|].
    exact (handle_message_replies _ _ _ _ Hm).
Qed.

Lemma run_sent_grows (events : list Incoming) (c : Conn) :
  exists out,
    sent (fold_left step events c) = (sent c ++ out)%list
    /\ (length out <= length events)%nat.
Proof.
  revert c. induction events as [|ev events IH]; intros c; cbn [fold_left].
  - exists []. rewrite app_nil_r. split; [reflexivity | simpl; lia].
  - destruct (step_sent_grows c ev) as (o1 & H1 & L1).
    destruct (IH (step c ev)) as (o2 & H2 & L2).
    exists (o1 ++ o2)%list. rewrite H2, H1, <- app_assoc.
    split; [reflexivity|]. rewrite length_app. simpl. lia.
Qed.

(** X1.  The handler never sends more messages than it has received: each
    incoming message gets at most one reply. *)
Theorem at_most_one_reply_per_message (g : Globals) (events : list Incoming) :
  (length (sent (websocket_vision g events)) <= length events)%nat.
Proof.
  unfold websocket_vision.
  destruct (run_sent_grows events (accept g)) as (out & -> & L).
  simpl. exact L.
Qed.



Lemma step_passed_over (c : Conn) (ev : Incoming) :
  passed_over ev = true -> step c ev = c.
Proof.
  destruct ev as [[[| | | | |m]|]|]; try discriminate.
  cbn [passed_over]. intros Hp.
  assert (Hm : forall g, handle_message (JObj m) g = (ok [], g)).
  { intros g. unfold handle_message, process_frame, bind, ret.
    destruct (type_is m "frame").
    - rewrite Hp. reflexivity.
    - apply negb_true_iff, orb_false_iff in Hp as [-> ->]. reflexivity. }
  unfold step. destruct c as [st out g]. cbn [status sent models].
  destruct st; try reflexivity.
  rewrite Hm. cbn [ok]. rewrite app_nil_r. reflexivity.
Qed.

(** X4.  Messages of unknown type (or without a type) and frames without a
    payload are passed over wherever they occur in the stream: the session
    ends in the same state, with the same messages sent, as if they had not
    been received. *)
Theorem passed_over_messages_do_not_matter (g : Globals)
    (events : list Incoming) :
  websocket_vision g events
  = websocket_vision g (filter (fun ev => passed_over ev = false) events).
Proof.
  unfold websocket_vision. generalize (accept g).
  induction events as [|ev events IH]; intros c; [reflexivity|].
  cbn [fold_left]. rewrite filter_cons.
  destruct (decide (passed_over ev = false)) as [Hk | Hp].
  - cbn [fold_left]. apply IH.
  - apply not_false_is_true in Hp.
    rewrite (step_passed_over c ev Hp). apply IH.
Qed.



(** Every step of a frame that produced a result. *)
Lemma process_frame_steps (m : gmap string json) (g g' : Globals)
    (d : DetectionResult) :
  process_frame m g = (ok (Some d), g') ->
  exists image g1 g2,
    decode_image (dict_get m "data") = ok image
    /\ run_hand_tracker image g = (ok (det_hands d), g1)
    /\ run_yolo_detector m image g1 = (ok (det_objects d), g2)
    /\ run_pose_estimator m image g2 = (ok (det_pose d), g')
    /\ control_of (det_hands d) image = ok (det_control d).
Proof.
  unfold process_frame, bind, lift, ret.
  destruct (truthy (dict_get m "data")); cbn [negb]; [|discriminate].
  destruct (decode_image (dict_get m "data")) as [e | image] eqn:H0;
    [discriminate|].
  destruct (run_hand_tracker image g) as [[e | hands] g1] eqn:H1;
    [discriminate|].
  destruct (run_yolo_detector m image g1) as [[e | objects] g2] eqn:H2;
    [discriminate|].
  destruct (run_pose_estimator m image g2) as [[e | pose] g3] eqn:H3;
    [discriminate|].
  destruct (control_of hands image) as [e | control] eqn:Hc; [discriminate|].
  intros H. injection H as <- <-. exists image, g1, g2. cbn.
  repeat split; assumption.
Qed.

Lemma run_hand_tracker_loaded (image : Image) (g g' : Globals)
    (r : Result (list Hand)) :
  run_hand_tracker image g = (r, g') ->
  models_loaded (health_check g') = models_loaded (health_check g)
  /\ (hand_tracker g = None -> r = ok []).
Proof.
  unfold run_hand_tracker. destruct (hand_tracker g) as [self|] eqn:Hh.
  - destruct (HandTracker_detect self image) as [r0 self'].
    intros H. injection H as <- <-. split; [|discriminate].
    unfold health_check. cbn. rewrite Hh. reflexivity.
  - intros H. injection H as <- <-. split; reflexivity.
Qed.

Lemma run_yolo_detector_loaded (m : gmap string json) (image : Image)
    (g g' : Globals) (r : Result (list ObjectDetection)) :
  run_yolo_detector m image g = (r, g') ->
  models_loaded (health_check g') = models_loaded (health_check g)
  /\ (yolo_detector g = None -> r = ok []).
Proof.
  unfold run_yolo_detector. destruct (yolo_detector g) as [self|] eqn:Hy.
  - destruct (flag m "detectObjects").
    + destruct (YOLODetector_detect self image) as [r0 self'].
      intros H. injection H as <- <-. split; [|discriminate].
      unfold health_check. cbn. rewrite Hy. reflexivity.
    + intros H. injection H as <- <-. split; [reflexivity | discriminate].
  - intros H. injection H as <- <-. split; reflexivity.
Qed.

Lemma run_pose_estimator_loaded (m : gmap string json) (image : Image)
    (g g' : Globals) (r : Result (option PoseData)) :
  run_pose_estimator m image g = (r, g') ->
  models_loaded (health_check g') = models_loaded (health_check g)
  /\ (pose_estimator g = None -> r = ok None).
Proof.
  unfold run_pose_estimator. destruct (pose_estimator g) as [self|] eqn:Hp.
  - destruct (flag m "detectPose").
    + destruct (PoseEstimator_detect self image) as [r0 self'].
      intros H. injection H as <- <-. split; [|discriminate].
      unfold health_check. cbn. rewrite Hp. reflexivity.
    + intros H. injection H as <- <-. split; [reflexivity | discriminate].
  - intros H. injection H as <- <-. split; reflexivity.
Qed.

Lemma process_frame_loaded (m : gmap string json) (g g' : Globals)
    (r : Result (option DetectionResult)) :
  process_frame m g = (r, g') ->
  models_loaded (health_check g') = models_loaded (health_check g).
Proof.
  unfold process_frame, bind, lift, ret.
  destruct (truthy (dict_get m "data")); cbn [negb];
    [| intros H; injection H as _ <-; reflexivity].
  destruct (decode_image (dict_get m "data")) as [e | image];
    [intros H; injection H as _ <-; reflexivity|].
  destruct (run_hand_tracker image g) as [r1 g1] eqn:H1.
  apply run_hand_tracker_loaded in H1 as [L1 _].
  destruct r1 as [e | hands]; [intros H; injection H as _ <-; exact L1|].
  destruct (run_yolo_detector m image g1) as [r2 g2] eqn:H2.
  apply run_yolo_detector_loaded in H2 as [L2 _].
  destruct r2 as [e | objects];
    [intros H; injection H as _ <-; congruence|].
  destruct (run_pose_estimator m image g2) as [r3 g3] eqn:H3.
  apply run_pose_estimator_loaded in H3 as [L3 _].
  destruct r3 as [e | pose]; [intros H; injection H as _ <-; congruence|].
  destruct (control_of hands image);
    intros H; injection H as _ <-; congruence.
Qed.

Lemma step_loaded (c : Conn) (ev : Incoming) :
  models_loaded (health_check (models (step c ev)))
  = models_loaded (health_check (models c)).
Proof.
  unfold step. destruct (status c); try reflexivity.
  destruct ev as [[message|]|]; try reflexivity.
  destruct (handle_message message (models c)) as [r g'] eqn:Hm.
  assert (L : models_loaded (health_check g')
              = models_loaded (health_check (models c))).
  { destruct message as [| | | | |m];
      try (injection Hm as _ <-; reflexivity).
    unfold handle_message in Hm.
    destruct (type_is m "frame").
    - unfold bind, ret in Hm.
      destruct (process_frame m (models c)) as [r0 g0] eqn:Hp.
      apply process_frame_loaded in Hp.
      destruct r0 as [e | [d|]]; injection Hm as _ <-; exact Hp.
    - destruct (type_is m "ping"); [|destruct (type_is m "config")];
        injection Hm as _ <-; reflexivity. }
  destruct r; exact L.
Qed.

(** X5.  Handling messages never loads or unloads a model: after any
    session, [health_check] reports the same [models_loaded] flags as
    before it. *)
Theorem sessions_keep_models_loaded (g : Globals) (events : list Incoming) :
  models_loaded (health_check (models (websocket_vision g events)))
  = models_loaded (health_check g).
Proof.
  unfold websocket_vision. change g with (models (accept g)) at 2.
  generalize (accept g).
  induction events as [|ev events IH]; intros c; cbn [fold_left].
  - reflexivity.
  - rewrite IH. apply step_loaded.
Qed.

Lemma loaded_flags (a b : Globals) :
  models_loaded (health_check a) = models_loaded (health_check b) ->
  (hand_tracker b = None -> hand_tracker a = None)
  /\ (yolo_detector b = None -> yolo_detector a = None)
  /\ (pose_estimator b = None -> pose_estimator a = None).
Proof.
  unfold health_check. cbn. intros H. injection H as Hh Hy Hp.
  repeat split; intros Hb; rewrite Hb in *;
    [destruct (hand_tracker a) | destruct (yolo_detector a)
     | destruct (pose_estimator a)]; (reflexivity || discriminate).
Qed.

(** A property of the results of single frames holds of every detection
    result a session sends, when it may rely on the models loaded at the
    start of the session. *)
Lemma sent_detections (g : Globals) (P : DetectionResult -> Prop) :
  (forall m g0 g' d,
      models_loaded (health_check g0) = models_loaded (health_check g) ->
      process_frame m g0 = (ok (Some d), g') -> P d) ->
  forall events,
    Forall (fun o => match o with Detection d => P d | _ => True end)
           (sent (websocket_vision g events)).
Proof.
  intros HP events. unfold websocket_vision.
  assert (Hinv : forall c,
             models_loaded (health_check (models c))
             = models_loaded (health_check g) ->
             Forall (fun o => match o with Detection d => P d | _ => True end)
                    (sent c) ->
             Forall (fun o => match o with Detection d => P d | _ => True end)
                    (sent (fold_left step events c))).
  { induction events as [|ev events IH]; intros c Hl Hc; cbn [fold_left].
    - exact Hc.
    - apply IH; [rewrite step_loaded; exact Hl|].
      unfold step. destruct (status c); [| exact Hc..].
      destruct ev as [[message|]|]; cbn [sent]; try exact Hc.
      destruct (handle_message message (models c)) as [[e | out] g'] eqn:Hm;
        cbn [sent]; [exact Hc|].
      apply Forall_app. split; [exact Hc|].
      destruct message as [| | | | |m]; try discriminate.
      unfold handle_message in Hm. destruct (type_is m "frame").
      + unfold bind, ret in Hm.
        destruct (process_frame m (models c)) as [[e | [d|]] g1] eqn:Hp;
          try discriminate; injection Hm as <- _; repeat constructor.
        exact (HP _ _ _ _ Hl Hp).
      + destruct (type_is m "ping"); [|destruct (type_is m "config")];
          injection Hm as <- _; repeat constructor. }
  apply Hinv; [reflexivity | constructor].
Qed.

(** X6.  A model that is not loaded when the session starts leaves its slot
    empty in every detection result of the session, whatever the frames ask
    for: no hand tracker, no hands and no control; no object detector, no
    objects; no pose estimator, no pose. *)
Theorem absent_models_leave_empty_slots (g : Globals)
    (events : list Incoming) :
  Forall (fun o =>
            match o with
            | Detection d =>
                (hand_tracker g = None ->
                 det_hands d = [] /\ det_control d = None)
                /\ (yolo_detector g = None -> det_objects d = [])
                /\ (pose_estimator g = None -> det_pose d = None)
            | _ => True
            end)
         (sent (websocket_vision g events)).
Proof.
  apply (sent_detections g
           (fun d =>
              (hand_tracker g = None ->
               det_hands d = [] /\ det_control d = None)
              /\ (yolo_detector g = None -> det_objects d = [])
              /\ (pose_estimator g = None -> det_pose d = None))).
  intros m g0 g' d Hl Hp.
  destruct (process_frame_steps _ _ _ _ Hp)
    as (image & g1 & g2 & _ & H1 & H2 & H3 & Hc).
  pose proof (run_hand_tracker_loaded _ _ _ _ H1) as [L1 N1].
  pose proof (run_yolo_detector_loaded _ _ _ _ _ H2) as [L2 N2].
  pose proof (run_pose_estimator_loaded _ _ _ _ _ H3) as [L3 N3].
  destruct (loaded_flags g0 g Hl) as (Fh & _ & _).
  destruct (loaded_flags g1 g (eq_trans L1 Hl)) as (_ & Fy & _).
  destruct (loaded_flags g2 g (eq_trans L2 (eq_trans L1 Hl))) as (_ & _ & Fp).
  split; [|split].
  - intros Hn. specialize (N1 (Fh Hn)). unfold ok in N1.
    assert (Hh : det_hands d = []) by congruence.
    split; [exact Hh|].
    rewrite Hh in Hc. cbn in Hc. unfold ok in Hc. congruence.
  - intros Hn. specialize (N2 (Fy Hn)). unfold ok in N2. congruence.
  - intros Hn. specialize (N3 (Fp Hn)). unfold ok in N3. congruence.
Qed.

Lemma gesture_boost (n : nat) (t : Q) :
  gesture n t = BOOST -> (21 <= n)%nat /\ (7 # 10 < t)%Q.
Proof.
  unfold gesture. destruct (Nat.leb_spec 21 n) as [Hn|]; [|discriminate].
  destruct (Qlt_bool (7 # 10) t) eqn:Ht; [|discriminate].
  intros _. split; [exact Hn | apply Qlt_bool_iff; exact Ht].
Qed.

(** X7.  Every control signal a session sends is the one derived from the
    first hand of its detection result; its thrust lies in [[0, 1]]; and it
    says [BOOST] only when that hand has at least 21 landmarks and the
    thrust exceeds [0.7]. *)
Theorem sent_controls_are_sound (g : Globals) (events : list Incoming) :
  Forall (fun o =>
            match o with
            | Detection d =>
                forall c, det_control d = Some c ->
                  exists primary others,
                    det_hands d = primary :: others
                    /\ c = signal_of (landmarks primary)
                    /\ (0 <= thrust c /\ thrust c <= 1)%Q
                    /\ (action c = BOOST ->
                        (21 <= length (landmarks primary))%nat
                        /\ (7 # 10 < thrust c)%Q)
            | _ => True
            end)
         (sent (websocket_vision g events)).
Proof.
  apply (sent_detections g
           (fun d =>
              forall c, det_control d = Some c ->
                exists primary others,
                  det_hands d = primary :: others
                  /\ c = signal_of (landmarks primary)
                  /\ (0 <= thrust c /\ thrust c <= 1)%Q
                  /\ (action c = BOOST ->
                      (21 <= length (landmarks primary))%nat
                      /\ (7 # 10 < thrust c)%Q))).
  intros m g0 g' d _ Hp c Hc.
  destruct (process_frame_steps _ _ _ _ Hp) as (image & _ & _ & _ & _ & _ & _ & Hctl).
  rewrite Hc in Hctl. unfold control_of in Hctl.
  destruct (det_hands d) as [|primary others]; [discriminate|].
  destruct (calculate_control_signal primary (image_shape image))
    as [e | c'] eqn:Hcalc; [discriminate|].
  cbn in Hctl. assert (c' = c) as -> by (unfold ok in Hctl; congruence).
  apply calculate_returns in Hcalc as [_ ->].
  exists primary, others.
  split; [reflexivity|]. split; [reflexivity|].
  unfold signal_of. cbn [thrust action].
  split; [apply py_clamp_bounds | apply gesture_boost].
Qed.

(** X8.  A frame whose [data] is true but not a string (a number, [true], a
    non-empty list or dictionary) ends the session with [TypeError] before
    any model is run: nothing is sent and the models are untouched. *)
Theorem non_string_payload_faults (c : Conn) (m : gmap string json) :
  status c = Open ->
  type_is m "frame" = true ->
  truthy (dict_get m "data") = true ->
  (forall s, dict_get m "data" <> JStr s) ->
  step c (Received (Some (JObj m)))
  = {| status := Faulted TypeError ; sent := sent c ; models := models c |}.
Proof.
  intros Hopen Hm Ht Hs.
  apply step_frame_raises; [assumption..|].
  apply decode_failure_raises; [assumption|].
  unfold decode_image.
  destruct (dict_get m "data") as [| | |s| |]; try reflexivity.
  destruct (Hs s). reflexivity.
Qed.

Lemma hand_entry_same (hand : Hand) : hand_entry hand = hand.
Proof. destruct hand as [lms label c [x y w h]]. reflexivity. Qed.

Lemma map_hand_entry (hands : list Hand) : map hand_entry hands = hands.
Proof.
  induction hands as [|h hs IH]; cbn [map]; [reflexivity|].
  rewrite hand_entry_same, IH. reflexivity.
Qed.

(** X9.  With a hand tracker loaded, the hands of a detection result are
    exactly the hands the tracker returned for the decoded image: the
    dictionaries the server rebuilds change nothing. *)
Theorem hands_are_the_trackers (m : gmap string json) (g g' : Globals)
    (d : DetectionResult) (self : MPHands) :
  process_frame m g = (ok (Some d), g') ->
  hand_tracker g = Some self ->
  exists image,
    decode_image (dict_get m "data") = ok image
    /\ fst (HandTracker_detect self image) = ok (det_hands d).
Proof.
  intros Hp Hself.
  destruct (process_frame_steps _ _ _ _ Hp)
    as (image & g1 & g2 & H0 & H1 & _).
  exists image. split; [exact H0|].
  unfold run_hand_tracker in H1. rewrite Hself in H1.
  destruct (HandTracker_detect self image) as [[e | hands] self'];
    cbn in H1; [discriminate|].
  rewrite map_hand_entry in H1. cbn. unfold ok in *. congruence.
Qed.

End SessionProperties.

(** * [HandTracker.detect] *)

Lemma py_min_cases (a b : Q) :
  (py_min a b = a \/ py_min a b = b)
  /\ (py_min a b <= a)%Q /\ (py_min a b <= b)%Q.
Proof.
  unfold py_min. destruct (Qlt_bool b a) eqn:H;
    [apply Qlt_bool_iff in H | apply Qlt_bool_ge in H];
    (split; [auto | split; lra]).
Qed.

Lemma py_max_cases (a b : Q) :
  (py_max a b = a \/ py_max a b = b)
  /\ (a <= py_max a b)%Q /\ (b <= py_max a b)%Q.
Proof.
  unfold py_max. destruct (Qlt_bool a b) eqn:H;
    [apply Qlt_bool_iff in H | apply Qlt_bool_ge in H];
    (split; [auto | split; lra]).
Qed.

Lemma fold_py_min (xs : list Q) (x : Q) :
  In (fold_left py_min xs x) (x :: xs)
  /\ Forall (fun v => (fold_left py_min xs x <= v)%Q) (x :: xs).
Proof.
  revert x. induction xs as [|y ys IH]; intros x; cbn [fold_left].
  - split; [left; reflexivity | repeat constructor; lra].
  - destruct (IH (py_min x y)) as [Hin Hall].
    destruct (py_min_cases x y) as (Hc & Hx & Hy).
    apply Forall_cons in Hall as [Hm Hys]. split.
    + destruct Hin as [<- | Hin].
      * destruct Hc as [-> | ->]; [left | right; left]; reflexivity.
      * right; right; exact Hin.
    + repeat constructor; [lra | lra | exact Hys].
Qed.

Lemma fold_py_max (xs : list Q) (x : Q) :
  In (fold_left py_max xs x) (x :: xs)
  /\ Forall (fun v => (v <= fold_left py_max xs x)%Q) (x :: xs).
Proof.
  revert x. induction xs as [|y ys IH]; intros x; cbn [fold_left].
  - split; [left; reflexivity | repeat constructor; lra].
  - destruct (IH (py_max x y)) as [Hin Hall].
    destruct (py_max_cases x y) as (Hc & Hx & Hy).
    apply Forall_cons in Hall as [Hm Hys]. split.
    + destruct Hin as [<- | Hin].
      * destruct Hc as [-> | ->]; [left | right; left]; reflexivity.
      * right; right; exact Hin.
    + repeat constructor; [lra | lra | exact Hys].
Qed.

Lemma py_min_list_spec (xs : list Q) (m : Q) :
  py_min_list xs = ok m -> In m xs /\ Forall (fun v => (m <= v)%Q) xs.
Proof.
  destruct xs as [|x xs]; [discriminate|]. cbn. intros H.
  injection H as <-. apply fold_py_min.
Qed.

Lemma py_max_list_spec (xs : list Q) (m : Q) :
  py_max_list xs = ok m -> In m xs /\ Forall (fun v => (v <= m)%Q) xs.
Proof.
  destruct xs as [|x xs]; [discriminate|]. cbn. intros H.
  injection H as <-. apply fold_py_max.
Qed.

(** [[l[i] for l in landmarks]] on landmarks that all have coordinate [i]. *)
Lemma column_coords (i : nat) (lms : list Landmark) :
  forallb (has_coord i) lms = true -> column i lms = ok (coords i lms).
Proof.
  induction lms as [|l lms IH]; cbn [forallb column coords map].
  - reflexivity.
  - intros H. apply andb_prop in H as [Hl Hrest].
    rewrite py_index_spec, Hl. cbn. fold (coords i lms).
    rewrite (IH Hrest). reflexivity.
Qed.

Lemma triples_have_coords (i : nat) (found : list MPLandmark) :
  (i < 3)%nat ->
  forallb (has_coord i)
          (map (fun lm => [mp_x lm; mp_y lm; mp_z lm]) found) = true.
Proof.
  intros Hi. apply forallb_forall. intros l Hl.
  apply in_map_iff in Hl as (lm & <- & _).
  unfold has_coord. apply Nat.ltb_lt. simpl. exact Hi.
Qed.

(** One hand of the result, field by field. *)
Lemma build_hand_fields (handednesses : list (list string)) (idx : nat)
    (found : list MPLandmark) (h : Hand) :
  build_hand handednesses idx found = ok h ->
  let lms := map (fun lm => [mp_x lm; mp_y lm; mp_z lm]) found in
  exists label labels min_x max_x min_y max_y,
    nth_error handednesses idx = Some (label :: labels)
    /\ py_min_list (coords 0 lms) = ok min_x
    /\ py_max_list (coords 0 lms) = ok max_x
    /\ py_min_list (coords 1 lms) = ok min_y
    /\ py_max_list (coords 1 lms) = ok max_y
    /\ h = {| landmarks := lms ; handedness := label ; confidence := 9 # 10 ;
              boundingBox := {| box_x := min_x ; box_y := min_y ;
                                box_width := max_x - min_x ;
                                box_height := max_y - min_y |}%Q |}.
Proof.
  intros H lms. unfold build_hand in H. fold lms in H.
  unfold py_index in H at 1.
  destruct (nth_error handednesses idx) as [classification|] eqn:Hcl;
    cbn [rbind ok raise] in H; [|discriminate].
  destruct classification as [|label labels]; [discriminate|].
  cbn [py_index nth_error rbind ok] in H.
  rewrite !column_coords in H by (apply triples_have_coords; lia).
  cbn [rbind ok] in H.
  destruct (py_min_list (coords 0 lms)) as [e | min_x]; [discriminate|].
  destruct (py_max_list (coords 0 lms)) as [e | max_x]; [discriminate|].
  destruct (py_min_list (coords 1 lms)) as [e | min_y]; [discriminate|].
  destruct (py_max_list (coords 1 lms)) as [e | max_y]; [discriminate|].
  cbn [rbind] in H. injection H as <-.
  exists label, labels, min_x, max_x, min_y, max_y.
  repeat split; reflexivity.
Qed.

Lemma build_hands_lookup (handednesses : list (list string))
    (found : list (list MPLandmark)) (idx : nat) (hands : list Hand) :
  build_hands handednesses idx found = ok hands ->
  length hands = length found
  /\ forall i h, nth_error hands i = Some h ->
       exists lm, nth_error found i = Some lm
                  /\ build_hand handednesses (idx + i) lm = ok h.
Proof.
  revert idx hands. induction found as [|lm found IH]; intros idx hands;
    cbn [build_hands].
  - intros H. injection H as <-. split; [reflexivity|].
    intros [|i] h; discriminate.
  - destruct (build_hand handednesses idx lm) as [e | h0] eqn:Hh;
      cbn [rbind]; [discriminate|].
    destruct (build_hands handednesses (S idx) found) as [e | hs] eqn:Hhs;
      cbn [rbind]; [discriminate|].
    intros H. injection H as <-.
    destruct (IH _ _ Hhs) as [Hlen Hlook]. split.
    + cbn. rewrite Hlen. reflexivity.
    + intros [|i] h; cbn [nth_error].
      * intros E. injection E as <-. exists lm.
        rewrite Nat.add_0_r. auto.
      * intros E. destruct (Hlook i h E) as (lm' & H1 & H2).
        exists lm'. rewrite <- Nat.add_succ_comm. auto.
Qed.

(** The hands MediaPipe found, [[]] for [None]. *)
Lemma detections_of_found (results : MPHandsResult) :
  detections_of results
  = build_hands (multi_handedness results) 0
                (default [] (multi_hand_landmarks results)).
Proof.
  unfold detections_of.
  destruct (multi_hand_landmarks results) as [[|first more]|]; reflexivity.
Qed.

(** X10.  [HandTracker.detect] returns one hand per hand MediaPipe found, in
    the same order; each has MediaPipe's landmarks as [[x, y, z]] lists, the
    first label of the handedness classification with the same index, and
    confidence [0.9]. *)
Theorem detections_follow_mediapipe (results : MPHandsResult)
    (hands : list Hand) :
  detections_of results = ok hands ->
  let found := default [] (multi_hand_landmarks results) in
  length hands = length found
  /\ forall i h, nth_error hands i = Some h ->
       exists lm label labels,
         nth_error found i = Some lm
         /\ landmarks h = map (fun p => [mp_x p; mp_y p; mp_z p]) lm
         /\ nth_error (multi_handedness results) i = Some (label :: labels)
         /\ handedness h = label
         /\ confidence h = 9 # 10.
Proof.
  rewrite detections_of_found. intros H found.
  destruct (build_hands_lookup _ _ _ _ H) as [Hlen Hlook].
  split; [exact Hlen|]. intros i h Hi.
  destruct (Hlook i h Hi) as (lm & Hlm & Hb).
  destruct (build_hand_fields _ _ _ _ Hb)
    as (label & labels & ? & ? & ? & ? & Hcl & _ & _ & _ & _ & ->).
  exists lm, label, labels. cbn. auto.
Qed.

(** X11.  The bounding box of every hand [HandTracker.detect] returns is the
    smallest box around its landmarks: width and height are not negative,
    every landmark lies inside, and each of the four sides is touched by
    some landmark. *)
Theorem bounding_box_is_tight (results : MPHandsResult) (hands : list Hand) :
  detections_of results = ok hands ->
  Forall (fun h =>
            let b := boundingBox h in
            let xs := coords 0 (landmarks h) in
            let ys := coords 1 (landmarks h) in
            (0 <= box_width b /\ 0 <= box_height b)%Q
            /\ Forall (fun x => box_x b <= x /\ x <= box_x b + box_width b)%Q xs
            /\ Forall (fun y => box_y b <= y /\ y <= box_y b + box_height b)%Q ys
            /\ In (box_x b) xs
            /\ In (box_y b) ys
            /\ (exists x, In x xs /\ x == box_x b + box_width b)%Q
            /\ (exists y, In y ys /\ y == box_y b + box_height b)%Q)
         hands.
Proof.
  rewrite detections_of_found. intros H.
  destruct (build_hands_lookup _ _ _ _ H) as [_ Hlook].
  apply List.Forall_forall. intros h Hin.
  apply In_nth_error in Hin as [i Hi].
  destruct (Hlook i h Hi) as (lm & _ & Hb).
  destruct (build_hand_fields _ _ _ _ Hb)
    as (label & labels & min_x & max_x & min_y & max_y
        & _ & Hnx & Hxx & Hny & Hxy & ->).
  cbn [boundingBox landmarks box_x box_y box_width box_height].
  set (lms := map (fun p => [mp_x p; mp_y p; mp_z p]) lm) in *.
  apply py_min_list_spec in Hnx as [Inx Anx].
  apply py_max_list_spec in Hxx as [Ixx Axx].
  apply py_min_list_spec in Hny as [Iny Any].
  apply py_max_list_spec in Hxy as [Ixy Axy].
  rewrite List.Forall_forall in Anx, Axx, Any, Axy.
  pose proof (Anx _ Ixx). pose proof (Any _ Ixy).
  split; [split; lra|].
  split; [apply List.Forall_forall; intros x Hx;
          pose proof (Anx x Hx); pose proof (Axx x Hx); split; lra|].
  split; [apply List.Forall_forall; intros y Hy;
          pose proof (Any y Hy); pose proof (Axy y Hy); split; lra|].
  split; [exact Inx|]. split; [exact Iny|].
  split; [exists max_x | exists max_y]; (split; [assumption | lra]).
Qed.

(** X12.  [HandTracker.detect] returns exactly when every hand MediaPipe
    found has at least one landmark and a handedness classification, with at
    least one label, at its index; in every other case it raises. *)
Theorem detections_return_iff (results : MPHandsResult) :
  let found := default [] (multi_hand_landmarks results) in
  (exists hands, detections_of results = ok hands)
  <-> forall i lm, nth_error found i = Some lm ->
        lm <> []
        /\ exists label labels,
             nth_error (multi_handedness results) i = Some (label :: labels).
Proof.
  intros found. rewrite detections_of_found. fold found.
  generalize (multi_handedness results) as hs. intros hs.
  assert (Hgen : forall idx,
             (exists hands, build_hands hs idx found = ok hands)
             <-> forall i lm, nth_error found i = Some lm ->
                   lm <> []
                   /\ exists label labels,
                        nth_error hs (idx + i) = Some (label :: labels)).
  { clear. induction found as [|lm0 found IH]; intros idx.
    - split.
      + intros _ [|i] lm; discriminate.
      + intros _. exists []. reflexivity.
    - cbn [build_hands]. split.
      + intros [hands H].
        destruct (build_hand hs idx lm0) as [e | h0] eqn:Hh;
          cbn [rbind] in H; [discriminate|].
        destruct (build_hands hs (S idx) found) as [e | hs'] eqn:Hhs;
          cbn [rbind] in H; [discriminate|].
        intros [|i] lm; cbn [nth_error].
        * intros E. injection E as <-. rewrite Nat.add_0_r.
          destruct (build_hand_landmarks _ _ _ _ Hh) as [Hne _].
          destruct (build_hand_fields _ _ _ _ Hh)
            as (label & labels & ? & ? & ? & ? & Hcl & _).
          split; [exact Hne | exists label, labels; exact Hcl].
        * intros E. rewrite <- Nat.add_succ_comm.
          apply (proj1 (IH (S idx)) (ex_intro _ hs' Hhs) i lm E).
      + intros Hall.
        destruct (Hall 0%nat lm0 eq_refl) as (Hne & label & labels & Hcl).
        rewrite Nat.add_0_r in Hcl.
        assert (Hrest : exists hands, build_hands hs (S idx) found = ok hands).
        { apply IH. intros i lm Hi. rewrite Nat.add_succ_comm.
          apply (Hall (S i) lm Hi). }
        destruct Hrest as [hands ->].
        unfold build_hand, py_index. rewrite Hcl. cbn [rbind ok nth_error].
        rewrite !column_coords by (apply triples_have_coords; lia).
        destruct lm0 as [|p lm0]; [congruence|].
        cbn. eexists. reflexivity. }
  exact (Hgen 0%nat).
Qed.

(** * [YOLODetector.detect] *)

Lemma yolo_entry_returns (names : gmap Z string) (box : YoloBox) :
  (exists d, yolo_entry names box = ok d)
  <-> exists x1 y1 x2 y2 rows c confs k ks name,
        xyxy box = [x1; y1; x2; y2] :: rows
        /\ conf box = c :: confs
        /\ cls box = k :: ks
        /\ names !! py_int k = Some name.
Proof.
  unfold yolo_entry, class_name_of, py_index. split.
  - intros [d H].
    destruct (xyxy box) as [|row rows]; [discriminate|].
    cbn [nth_error rbind ok] in H.
    destruct row as [|x1 [|y1 [|x2 [|y2 [|]]]]]; try discriminate.
    cbn [unpack4 rbind ok] in H.
    destruct (conf box) as [|c confs]; [discriminate|].
    destruct (cls box) as [|k ks]; [discriminate|].
    cbn [nth_error rbind ok] in H.
    destruct (names !! py_int k) as [name|] eqn:Hn; [|discriminate].
    exists x1, y1, x2, y2, rows, c, confs, k, ks, name. auto.
  - intros (x1 & y1 & x2 & y2 & rows & c & confs & k & ks & name
            & -> & -> & -> & Hn).
    cbn. rewrite Hn. eexists. reflexivity.
Qed.


Lemma yolo_boxes_entries (names : gmap Z string) (bs : list YoloBox)
    (ds : list ObjectDetection) :
  yolo_boxes names bs = ok ds <->
  Forall2 (fun box d => yolo_entry names box = ok d) bs ds.
Proof.
  revert ds. induction bs as [|box bs IH]; intros ds; cbn [yolo_boxes].
  - split.
    + intros H. injection H as <-. constructor.
    + intros H. inversion H. reflexivity.
  - split.
    + destruct (yolo_entry names box) as [e | d] eqn:Hd; cbn [rbind];
        [discriminate|].
      destruct (yolo_boxes names bs) as [e | ds'] eqn:Hds; cbn [rbind];
        [discriminate|].
      intros H. injection H as <-. constructor; [exact Hd|].
      apply IH. reflexivity.
    + intros H. inversion H as [|? d ? ds' Hd Hds]; subst.
      rewrite Hd. cbn [rbind]. apply IH in Hds. rewrite Hds. reflexivity.
Qed.

Lemma yolo_detections_entries (names : gmap Z string)
    (results : list YoloResult) (ds : list ObjectDetection) :
  yolo_detections names results = ok ds <->
  Forall2 (fun box d => yolo_entry names box = ok d) (all_boxes results) ds.
Proof.
  unfold all_boxes. revert ds.
  induction results as [|r results IH]; intros ds;
    cbn [yolo_detections map concat].
  - split.
    + intros H. injection H as <-. constructor.
    + intros H. inversion H. reflexivity.
  - destruct (boxes r) as [bs|]; cbn [default from_option id app];
      [|apply IH]. split.
    + destruct (yolo_boxes names bs) as [e | ds1] eqn:H1; cbn [rbind];
        [discriminate|].
      destruct (yolo_detections names results) as [e | ds2] eqn:H2;
        cbn [rbind]; [discriminate|].
      intros H. injection H as <-. apply Forall2_app.
      * apply yolo_boxes_entries. exact H1.
      * apply IH. reflexivity.
    + intros H. apply Forall2_app_inv_l in H as (ds1 & ds2 & H1 & H2 & ->).
      apply yolo_boxes_entries in H1. apply IH in H2.
      rewrite H1, H2. reflexivity.
Qed.


(** X14.  [YOLODetector.detect] returns exactly when every box of the
    results has a first [xyxy] row of four numbers, a confidence, and a class
    value whose truncation is a key of [model.names]; one box that fails this
    makes the whole call raise, whatever the other boxes hold. *)
Theorem detections_need_known_classes (names : gmap Z string)
    (results : list YoloResult) :
  (exists ds, yolo_detections names results = ok ds)
  <-> Forall (fun box =>
                exists x1 y1 x2 y2 rows c confs k ks name,
                  xyxy box = [x1; y1; x2; y2] :: rows
                  /\ conf box = c :: confs
                  /\ cls box = k :: ks
                  /\ names !! py_int k = Some name)
             (all_boxes results).
Proof.
  split.
  - intros [ds H]. apply yolo_detections_entries in H.
    induction H as [|box d bs ds' Hd _ IH]; constructor; [|exact IH].
    apply yolo_entry_returns. exists d. exact Hd.
  - intros H.
    assert (Hds : exists ds,
               Forall2 (fun box d => yolo_entry names box = ok d)
                       (all_boxes results) ds).
    { induction H as [|box bs Hb _ [ds IH]].
      - exists []. constructor.
      - apply yolo_entry_returns in Hb as [d Hd].
        exists (d :: ds). constructor; assumption. }
    destruct Hds as [ds Hds]. exists ds.
    apply yolo_detections_entries. exact Hds.
Qed.

(** [int] truncates towards zero, on both sides of it. *)
Example py_int_truncates :
  py_int (7 # 2) = 3%Z /\ py_int (-7 # 2) = (-3)%Z /\ py_int 16 = 16%Z.
Proof. repeat split. Qed.

(** * [PoseEstimator.detect] *)

(** X15.  [PoseEstimator.detect] returns [None] when MediaPipe found no
    pose, returns a pose when it found at least 29 landmarks, and raises
    [IndexError] when it found fewer (the key points go up to index 28). *)
Theorem pose_needs_29_landmarks :
  pose_of None = ok None
  /\ (forall lms, (29 <= length lms)%nat ->
        exists p, pose_of (Some lms) = ok (Some p))
  /\ (forall lms, (length lms < 29)%nat ->
        pose_of (Some lms) = raise IndexError).
Proof.
  split; [reflexivity|]. split.
  - intros lms Hlen. unfold pose_of, key_points_of, py_index.
    read_landmarks lms;
      try (eexists; reflexivity);
      match goal with
      | H : nth_error lms _ = None |- _ =>
          apply nth_error_None in H; lia
      end.
  - intros lms Hlen. unfold pose_of, key_points_of, py_index.
    read_landmarks lms; try reflexivity.
    match goal with
    | H : nth_error lms 28 = Some _ |- _ =>
        assert (nth_error lms 28 <> None) as Hs by congruence;
        apply nth_error_Some in Hs; lia
    end.
Qed.

(** X16.  A pose [PoseEstimator.detect] returns keeps every landmark of
    MediaPipe in order; its key points are the landmarks at the fixed indices
    0, 11-16 and 23-28; the head position is the nose; and the body centre is
    the midpoint of the two shoulders, so it lies between them. *)
Theorem pose_fields (lms : list PosePoint) (p : PoseDict) :
  pose_of (Some lms) = ok (Some p) ->
  let k := keyPoints p in
  pose_landmarks p = lms
  /\ map (nth_error lms) [0; 11; 12; 13; 14; 15; 16; 23; 24; 25; 26; 27; 28]%nat
     = map Some [nose k; leftShoulder k; rightShoulder k; leftElbow k;
                 rightElbow k; leftWrist k; rightWrist k; leftHip k;
                 rightHip k; leftKnee k; rightKnee k; leftAnkle k;
                 rightAnkle k]
  /\ headPosition p = {| pt_x := pose_x (nose k) ; pt_y := pose_y (nose k) |}
  /\ (pt_x (bodyCenter p) * 2
      == pose_x (leftShoulder k) + pose_x (rightShoulder k))%Q
  /\ (pt_y (bodyCenter p) * 2
      == pose_y (leftShoulder k) + pose_y (rightShoulder k))%Q
  /\ ((pose_x (leftShoulder k) <= pt_x (bodyCenter p)
       /\ pt_x (bodyCenter p) <= pose_x (rightShoulder k))
      \/ (pose_x (rightShoulder k) <= pt_x (bodyCenter p)
          /\ pt_x (bodyCenter p) <= pose_x (leftShoulder k)))%Q.
Proof.
  unfold pose_of, key_points_of, py_index.
  read_landmarks lms; try discriminate.
  intros H. injection H as <-. cbn [map].
  repeat match goal with
         | H : nth_error lms _ = Some _ |- _ => rewrite H; clear H
         end.
  cbn.
  split; [reflexivity|]. split; [reflexivity|]. split; [reflexivity|].
  assert (Hx : forall a b : Q, ((a + b) / 2 * 2 == a + b)%Q)
    by (intros; field).
  split; [apply Hx|]. split; [apply Hx|].
  match goal with
  | |- ((?a <= _ /\ _) \/ _)%Q =>
      match goal with
      | |- ((_ <= _ /\ _ <= ?b) \/ _)%Q =>
          pose proof (Hx a b); destruct (Qlt_le_dec a b); [left | right];
            split; lra
      end
  end.
Qed.

(** * [startup_event] seen through [health_check] *)

Section StartupProperties.

Context {X : Externals}.

(** X17.  After [startup_event] from the initial globals, the flags of
    [health_check] are nested: the pose estimator is reported loaded exactly
    when startup completed, it is loaded only if the object detector is, and
    the object detector only if the hand tracker is; the hand tracker is
    loaded exactly when its constructor and that of the vision processor
    before it both returned. *)
Theorem health_flags_after_startup :
  let device := if cuda_is_available then "cuda" else "cpu" in
  let flags := models_loaded (health_check (snd (startup_event no_models))) in
  (loaded_pose_estimator flags = true <->
   fst (startup_event no_models) = ok tt)
  /\ (loaded_pose_estimator flags = true -> loaded_yolo_detector flags = true)
  /\ (loaded_yolo_detector flags = true -> loaded_hand_tracker flags = true)
  /\ (loaded_hand_tracker flags = true <->
      exists v h, CudaVisionProcessor_init device = ok v
                  /\ HandTracker_init device = ok h).
Proof.
  intros device flags. subst flags.
  unfold startup_event. fold device.
  unfold bind, lift, set_vision_processor, set_hand_tracker,
    set_yolo_detector, set_pose_estimator, health_check, no_models.
  destruct (CudaVisionProcessor_init device) as [e | v]; cbn.
  { repeat split; try discriminate. intros (? & ? & ? & _). discriminate. }
  destruct (HandTracker_init device) as [e | h]; cbn.
  { repeat split; try discriminate. intros (? & ? & _ & ?). discriminate. }
  destruct (YOLODetector_init device) as [e | y]; cbn.
  { repeat split; try discriminate; eauto. }
  destruct (PoseEstimator_init device) as [e | p]; cbn.
  { repeat split; try discriminate; eauto. }
  repeat split; eauto.
Qed.

End StartupProperties.

(** * [ControllerService.PublishAudioEvent] *)

Section ControllerProperties.

Variable str_of_float : Q -> string.
Variable stub : Agent -> SimulationCommand -> StubOutcome.

(** X18.  [PublishAudioEvent] contacts at most one agent per event: the
    robot arm, with [DANCE] and the event's value as [intensity], for a
    [BEAT]; the lighting agent, with [CHANGE_COLOR] and the value as [pitch],
    for a [PITCH_CHANGE]; and no agent for any other event type. *)
Theorem publish_routes_by_type (request : AudioEvent) :
  let calls := fst (PublishAudioEvent str_of_float stub request) in
  let v := str_of_float (event_value request) in
  (event_type request = "BEAT" ->
   calls = [(RobotArm, mkCommand "robot-arm" "DANCE" {[ "intensity" := v ]})])
  /\ (event_type request = "PITCH_CHANGE" ->
      calls = [(Lighting,
                mkCommand "lighting" "CHANGE_COLOR" {[ "pitch" := v ]})])
  /\ (event_type request <> "BEAT" ->
      event_type request <> "PITCH_CHANGE" -> calls = [])
  /\ (length calls <= 1)%nat.
Proof.
  unfold PublishAudioEvent, _send_command. cbn zeta.
  destruct (String.eqb_spec (event_type request) "BEAT") as [Hb | Hb].
  - cbn. repeat split; try reflexivity; try lia.
    + intros Hp. rewrite Hb in Hp. discriminate.
    + intros Hn. contradiction.
  - destruct (String.eqb_spec (event_type request) "PITCH_CHANGE")
      as [Hp | Hp]; cbn.
    + repeat split; try reflexivity; try lia; intros; contradiction.
    + repeat split; try reflexivity; try lia; intros; contradiction.
Qed.

(** X19.  When [PublishAudioEvent] returns, it reports [success=True],
    whether the agent answered with success, answered with failure, or the
    call failed with [grpc.RpcError]; it raises only what a stub raised
    other than [grpc.RpcError]. *)
Theorem publish_always_reports_success (request : AudioEvent) :
  match snd (PublishAudioEvent str_of_float stub request) with
  | inr success => success = true
  | inl e =>
      exists agent command,
        In (agent, command) (fst (PublishAudioEvent str_of_float stub request))
        /\ stub agent command = Raised e
  end.
Proof.
  unfold PublishAudioEvent, _send_command. cbn zeta.
  destruct (String.eqb (event_type request) "BEAT");
    [| destruct (String.eqb (event_type request) "PITCH_CHANGE")];
    cbn [fst snd]; try reflexivity;
    match goal with
    | |- context [stub ?a ?c] =>
        destruct (stub a c) eqn:Hs; cbn; try reflexivity;
          exists a, c; split; [left; reflexivity | exact Hs]
    end.
Qed.

End ControllerProperties.

(** * More on [calculate_control_signal] *)

(** X20.  A hand whose landmarks have no depth (all [[x, y]]) gets thrust
    [0.5] and action [IDLE], however many landmarks it has: without depth
    the gesture is never [BOOST]. *)
Theorem no_depth_never_boosts (hand : Hand) (shape : list nat) :
  landmarks hand <> [] ->
  forallb (fun l => (length l =? 2)%nat) (landmarks hand) = true ->
  exists c,
    calculate_control_signal hand shape = ok c
    /\ (thrust c == 1 # 2)%Q
    /\ action c = IDLE.
Proof.
  intros Hne Hflat.
  assert (Hshape : well_shaped (landmarks hand) = true).
  { unfold well_shaped. rewrite Hflat. reflexivity. }
  exists (signal_of (landmarks hand)).
  split; [apply calculate_derivable, well_shaped_derivable; assumption|].
  destruct (landmarks hand) as [|first rest]; [congruence|].
  cbn [forallb] in Hflat. apply andb_prop in Hflat as [Hf _].
  apply Nat.eqb_eq in Hf.
  unfold signal_of, has_coord. rewrite Hf. cbn [Nat.ltb Nat.leb thrust action].
  split; [reflexivity|].
  unfold gesture. destruct (21 <=? length (first :: rest))%nat; reflexivity.
Qed.





(** * The tracker and the control derivation together *)

(** X23.  On the hands [HandTracker.detect] returns, the control derivation
    of the server never raises: without hands there is no control, and
    otherwise the control is the signal of the first hand. *)
Theorem tracker_hands_yield_control {X : Externals} (results : MPHandsResult)
    (hands : list Hand) (image : Image) :
  detections_of results = ok hands ->
  control_of (map hand_entry hands) image
  = ok (match hands with
        | [] => None
        | primary :: _ => Some (signal_of (landmarks primary))
        end).
Proof.
  rewrite detections_of_found. intros H.
  apply build_hands_derivable in H.
  destruct H as [|primary others Hd _]; cbn [map control_of].
  - reflexivity.
  - rewrite (calculate_derivable (hand_entry primary) _ Hd). reflexivity.
Qed.


(** * The further properties at concrete inputs *)


Lemma non_string_payload_faults_witness :
  let c := accept lab_models in
  let m := obj [("type", JStr "frame"); ("data", JNum 5)] in
  status c = Open
  /\ type_is m "frame" = true
  /\ truthy (dict_get m "data") = true
  /\ (forall s, dict_get m "data" <> JStr s)
  /\ step c (Received (Some (JObj m)))
     = {| status := Faulted TypeError ; sent := sent c ; models := models c |}.
Proof.
  intros c m.
  assert (Hopen : status c = Open) by reflexivity.
  assert (Hm : type_is m "frame" = true) by (vm_compute; reflexivity).
  assert (Ht : truthy (dict_get m "data") = true) by (vm_compute; reflexivity).
  assert (Hs : forall s, dict_get m "data" <> JStr s)
    by (intros s; vm_compute; discriminate).
  split; [exact Hopen|]. split; [exact Hm|]. split; [exact Ht|].
  split; [exact Hs|].
  exact (non_string_payload_faults c m Hopen Hm Ht Hs).
Defined.

Lemma hands_are_the_trackers_witness :
  let m := obj [("type", JStr "frame"); ("data", JStr lab_png);
                ("timestamp", JNum 1)] in
  process_frame m lab_models = (ok (Some (lab_detection [])), lab_models)
  /\ hand_tracker lab_models = Some tt
  /\ exists image,
       decode_image (X := lab true) (dict_get m "data") = ok image
       /\ fst (HandTracker_detect (X := lab true) tt image)
          = ok (det_hands (lab_detection [])).
Proof.
  intros m.
  assert (Hp : process_frame m lab_models
               = (ok (Some (lab_detection [])), lab_models))
    by (vm_compute; reflexivity).
  assert (Hs : hand_tracker lab_models = Some tt) by reflexivity.
  split; [exact Hp|]. split; [exact Hs|].
  exact (hands_are_the_trackers m lab_models lab_models (lab_detection []) tt
           Hp Hs).
Defined.

Lemma detections_follow_mediapipe_witness :
  detections_of lab_hands = ok [lab_hand]
  /\ length [lab_hand]
     = length (default [] (multi_hand_landmarks lab_hands))
  /\ forall i h, nth_error [lab_hand] i = Some h ->
       exists lm label labels,
         nth_error (default [] (multi_hand_landmarks lab_hands)) i = Some lm
         /\ landmarks h = map (fun p => [mp_x p; mp_y p; mp_z p]) lm
         /\ nth_error (multi_handedness lab_hands) i = Some (label :: labels)
         /\ handedness h = label
         /\ confidence h = 9 # 10.
Proof.
  assert (H : detections_of lab_hands = ok [lab_hand])
    by (vm_compute; reflexivity).
  split; [exact H|].
  exact (detections_follow_mediapipe lab_hands [lab_hand] H).
Defined.

Lemma bounding_box_is_tight_witness :
  let results :=
    {| multi_hand_landmarks :=
         Some [[mkMPLandmark (1 # 4) (1 # 2) 0;
                mkMPLandmark (3 # 4) (1 # 3) 0;
                mkMPLandmark (1 # 2) (2 # 3) 0]] ;
       multi_handedness := [["Left"]] |} in
  exists hands,
    detections_of results = ok hands
    /\ map boundingBox hands
       = [{| box_x := 1 # 4 ; box_y := 1 # 3 ;
             box_width := (3 # 4) - (1 # 4) ;
             box_height := (2 # 3) - (1 # 3) |}%Q]
    /\ Forall (fun h =>
                 Forall (fun x => box_x (boundingBox h) <= x
                                  /\ x <= box_x (boundingBox h)
                                          + box_width (boundingBox h))%Q
                        (coords 0 (landmarks h)))
              hands.
Proof.
  intros results. eexists.
  assert (H : detections_of results = ok _) by (vm_compute; reflexivity).
  split; [exact H|]. split; [reflexivity|].
  eapply Forall_impl; [exact (bounding_box_is_tight results _ H)|].
  intros h Hh. exact (proj1 (proj2 Hh)).
Defined.


Lemma pose_fields_witness :
  let pt := mkPosePoint (1 # 2) (1 # 4) 0 1 in
  let lms := repeat pt 33 in
  let p := {| pose_landmarks := lms ;
              keyPoints := mkKeyPoints pt pt pt pt pt pt pt pt pt pt pt pt pt ;
              headPosition := mkPoint2 (1 # 2) (1 # 4) ;
              bodyCenter := mkPoint2 (((1 # 2) + (1 # 2)) / 2)
                                     (((1 # 4) + (1 # 4)) / 2) |}%Q in
  pose_of (Some lms) = ok (Some p)
  /\ pose_landmarks p = lms
  /\ headPosition p = {| pt_x := pose_x (nose (keyPoints p)) ;
                         pt_y := pose_y (nose (keyPoints p)) |}
  /\ (pt_x (bodyCenter p) * 2
      == pose_x (leftShoulder (keyPoints p))
         + pose_x (rightShoulder (keyPoints p)))%Q.
Proof.
  intros pt lms p.
  assert (H : pose_of (Some lms) = ok (Some p)) by (vm_compute; reflexivity).
  split; [exact H|].
  pose proof (pose_fields lms p H) as (H1 & _ & H3 & H4 & _).
  auto.
Defined.

Lemma no_depth_never_boosts_witness :
  let hand := hand_of (repeat [1 # 2; 1 # 2]%Q 21) in
  landmarks hand <> []
  /\ forallb (fun l => (length l =? 2)%nat) (landmarks hand) = true
  /\ exists c,
       calculate_control_signal hand [480; 640; 3]%nat = ok c
       /\ (thrust c == 1 # 2)%Q
       /\ action c = IDLE.
Proof.
  intros hand.
  assert (Hne : landmarks hand <> []) by (simpl; discriminate).
  assert (Hflat : forallb (fun l => (length l =? 2)%nat) (landmarks hand)
                  = true) by reflexivity.
  split; [exact Hne|]. split; [exact Hflat|].
  exact (no_depth_never_boosts hand [480; 640; 3]%nat Hne Hflat).
Defined.



Lemma tracker_hands_yield_control_witness :
  detections_of lab_hands = ok [lab_hand]
  /\ control_of (X := lab true) (map hand_entry [lab_hand]) "image"
     = ok (Some (signal_of (landmarks lab_hand))).
Proof.
  assert (H : detections_of lab_hands = ok [lab_hand])
    by (vm_compute; reflexivity).
  split; [exact H|].
  exact (tracker_hands_yield_control (X := lab true) lab_hands [lab_hand]
           "image" H).
Defined.
